(** * opencollective-frontend: the 2FA modal and the StyledUpdate component

    A shallow embedding of
    [components/two-factor-authentication/TwoFactorAuthenticationModal.tsx]
    and of the [StyledUpdate] class component, followed by the properties
    proved about them.

    React state is explicit: a handler is a state transformer over the
    hook values, the browser's local storage and the pending
    authentication promise.  Values a handler closes over at render time
    are passed to it as arguments, because [setState] does not change
    them while the handler runs. *)

From Stdlib Require Import NArith Ascii String.
From stdpp Require Import gmap strings list.

Local Open Scope string_scope.

(** ** JavaScript values met by the modal *)

Module JS.

(** [selectedMethod] holds [null], [undefined] or a method name. *)
Inductive jsval :=
| JNull
| JUndefined
| JStr (s : string).

#[global] Instance jsval_eq_dec : EqDecision jsval.
Proof. solve_decision. Defined.

(** [ToBoolean]: the empty string, [null] and [undefined] are falsy. *)
Definition truthy (v : jsval) : bool :=
  match v with
  | JStr s => negb (s =? "")
  | JNull | JUndefined => false
  end.

(** [a || b] *)
Definition js_or (a b : jsval) : jsval := if truthy a then a else b.

(** [a === b] *)
Definition strict_eq (a b : jsval) : bool := bool_decide (a = b).

(** [String(v)], the conversion the Web Storage API applies to a value. *)
Definition to_string (v : jsval) : string :=
  match v with
  | JNull => "null"
  | JUndefined => "undefined"
  | JStr s => s
  end.

(** [Array.prototype.find] on an array of strings: the first element the
    predicate accepts, [undefined] when there is none. *)
Fixpoint Array_find (p : string -> bool) (l : list string) : jsval :=
  match l with
  | [] => JUndefined
  | x :: r => if p x then JStr x else Array_find p r
  end.

(** [Array.prototype.includes] *)
Definition Array_includes (l : list string) (x : jsval) : bool :=
  existsb (fun y => strict_eq (JStr y) x) l.

(** *** [Buffer.from(s, 'utf8').toString('base64')]

    A string is its sequence of UTF-8 bytes; the encoder is RFC 4648 with
    padding. *)
Definition base64_alphabet : string :=
  "ABCDEFGHIJKLMNOPQRSTUVWXYZabcdefghijklmnopqrstuvwxyz0123456789+/".

Definition base64_digit (n : N) : ascii :=
  match String.get (N.to_nat (N.land n 63)) base64_alphabet with
  | Some c => c
  | None => "="%char
  end.

Fixpoint base64_bytes (bs : list N) : string :=
  match bs with
  | [] => ""
  | [a] =>
      let n := N.shiftl a 16 in
      String (base64_digit (N.shiftr n 18))
        (String (base64_digit (N.shiftr n 12)) "==")
  | [a; b] =>
      let n := N.lor (N.shiftl a 16) (N.shiftl b 8) in
      String (base64_digit (N.shiftr n 18))
        (String (base64_digit (N.shiftr n 12))
           (String (base64_digit (N.shiftr n 6)) "="))
  | a :: b :: c :: rest =>
      let n := N.lor (N.lor (N.shiftl a 16) (N.shiftl b 8)) c in
      String (base64_digit (N.shiftr n 18))
        (String (base64_digit (N.shiftr n 12))
           (String (base64_digit (N.shiftr n 6))
              (String (base64_digit n) (base64_bytes rest))))
  end.

Definition utf8_bytes (s : string) : list N :=
  map N_of_ascii (list_ascii_of_string s).

Definition base64 (s : string) : string := base64_bytes (utf8_bytes s).

(** *** [s.length]

    The length of a JavaScript string is its number of UTF-16 code units.
    Read off the UTF-8 bytes: a character of one, two or three bytes is
    one unit, a character of four bytes is two (a surrogate pair), and
    the continuation bytes of a character add nothing.  A byte that
    starts no character and continues none counts as one unit.
    [pending] is the number of continuation bytes the character being
    read still has. *)
Fixpoint code_units (pending : nat) (s : string) : nat :=
  match s with
  | EmptyString => 0
  | String (Ascii _ _ _ b3 b4 b5 b6 b7) rest =>
      if negb b7 then S (code_units 0 rest)
      else if negb b6 then
        match pending with
        | S k => code_units k rest
        | O => S (code_units 0 rest)
        end
      else if negb b5 then S (code_units 1 rest)
      else if negb b4 then S (code_units 2 rest)
      else if negb b3 then S (S (code_units 3 rest))
      else S (code_units 0 rest)
  end.

Definition js_length (s : string) : nat := code_units 0 s.

End JS.

(** ** TwoFactorAuthenticationModal.tsx *)

Module TwoFactor.
Import JS.

(** Modelled from the spec: [lib/errors] is not part of the sources.
    [ERROR] is the enumeration of error types, of which the modal uses
    [TWO_FACTOR_AUTH_CANCELED]; [createError] builds an error of a type. *)
Inductive ERROR :=
| TWO_FACTOR_AUTH_CANCELED
| UNKNOWN.

Record Error := { error_type : ERROR; error_message : option string }.

Definition createError (t : ERROR) : Error :=
  {| error_type := t; error_message := None |}.

(** The object handed to [prompt.resolveAuth]. *)
Record AuthResult := { type : jsval; code : string }.

(** Modelled from the spec: [TwoFactorAuthenticationContext] is not part
    of the sources.  The prompt owns a pending authentication promise
    that [resolveAuth] resolves and [rejectAuth] rejects; a promise
    settles once. *)
Inductive AuthPromise :=
| Pending
| Resolved (r : AuthResult)
| Rejected (e : Error).

(** The fields of the prompt the modal reads. *)
Record Prompt := {
  isOpen : bool;
  prompt_supportedMethods : option (list string);
  allowRecovery : bool;
  isRequired : bool
}.

Record Toast := { variant : string; message : string }.

(** The three [React.useState] cells, and what the handlers reach outside
    the component. *)
Record World := {
  selectedMethod : jsval;
  twoFactorCode : string;
  confirming : bool;
  localStorage : gmap string string;
  auth : AuthPromise;
  toasts : list Toast
}.

(** A handler is a state transformer. *)
Definition M (A : Type) : Type := World -> A * World.

Definition ret {A} (a : A) : M A := fun w => (a, w).
Definition bind {A B} (m : M A) (k : A -> M B) : M B :=
  fun w => let (a, w') := m w in k a w'.
Definition exec {A} (m : M A) (w : World) : World := snd (m w).

#[global] Instance M_ret : MRet M := @ret.
#[global] Instance M_bind : MBind M := fun A B k m => bind m k.

Definition when (b : bool) (m : M unit) : M unit := if b then m else ret tt.

Definition setSelectedMethod (v : jsval) : M unit := fun w =>
  (tt, {| selectedMethod := v; twoFactorCode := twoFactorCode w;
          confirming := confirming w; localStorage := localStorage w;
          auth := auth w; toasts := toasts w |}).

Definition setTwoFactorCode (v : string) : M unit := fun w =>
  (tt, {| selectedMethod := selectedMethod w; twoFactorCode := v;
          confirming := confirming w; localStorage := localStorage w;
          auth := auth w; toasts := toasts w |}).

Definition setConfirming (v : bool) : M unit := fun w =>
  (tt, {| selectedMethod := selectedMethod w; twoFactorCode := twoFactorCode w;
          confirming := v; localStorage := localStorage w;
          auth := auth w; toasts := toasts w |}).

(** Modelled from the spec: [lib/local-storage] is not part of the
    sources.  [getFromLocalStorage] is [localStorage.getItem], which
    answers [null] for a missing key; [setLocalStorage] is
    [localStorage.setItem], which stores [String(value)]. *)
Definition getFromLocalStorage (ls : gmap string string) (key : string) : jsval :=
  match ls !! key with
  | Some v => JStr v
  | None => JNull
  end.

Definition setLocalStorage (key : string) (value : jsval) : M unit := fun w =>
  (tt, {| selectedMethod := selectedMethod w; twoFactorCode := twoFactorCode w;
          confirming := confirming w;
          localStorage := <[key := to_string value]> (localStorage w);
          auth := auth w; toasts := toasts w |}).

Definition settle (p : AuthPromise) : M unit := fun w =>
  (tt, {| selectedMethod := selectedMethod w; twoFactorCode := twoFactorCode w;
          confirming := confirming w; localStorage := localStorage w;
          auth := match auth w with Pending => p | settled => settled end;
          toasts := toasts w |}).

Definition resolveAuth (r : AuthResult) : M unit := settle (Resolved r).
Definition rejectAuth (e : Error) : M unit := settle (Rejected e).

Definition toast (t : Toast) : M unit := fun w =>
  (tt, {| selectedMethod := selectedMethod w; twoFactorCode := twoFactorCode w;
          confirming := confirming w; localStorage := localStorage w;
          auth := auth w; toasts := toasts w ++ [t] |}).

Section WithLocalStorageKeys.

(** [LOCAL_STORAGE_KEYS.PREFERRED_TWO_FACTOR_METHOD]; the table of keys is
    not part of the sources. *)
Variable PREFERRED_TWO_FACTOR_METHOD : string.

(** [initialMethod], lines 29-42.  An array is always truthy, so
    [!supportedMethods] holds of an absent list only. *)
Definition initialMethod (ls : gmap string string)
    (supportedMethods : option (list string)) : jsval :=
  match supportedMethods with
  | None => JNull
  | Some l =>
      if (length l =? 1)%nat then
        match l with
        | m :: _ => JStr m
        | [] => JUndefined
        end
      else
        let preferredMethod := getFromLocalStorage ls PREFERRED_TWO_FACTOR_METHOD in
        js_or (Array_find (fun method => strict_eq (JStr method) preferredMethod) l)
              (Array_find (fun method => negb (method =? "recovery_code")) l)
  end.

(** The [React.useMemo] of lines 50-54:
    [(prompt?.supportedMethods ?? []).filter(...)]. *)
Definition supportedMethods (prompt : Prompt) : list string :=
  List.filter (fun method => negb (method =? "recovery_code") || allowRecovery prompt)
         (default [] (prompt_supportedMethods prompt)).

Definition cancellable (prompt : Prompt) : bool := negb (isRequired prompt).

(** The [React.useEffect] of lines 62-66, run when [supportedMethods]
    changes. *)
Definition onSupportedMethodsChange (prompt : Prompt) : M unit := fun w =>
  when (0 <? length (supportedMethods prompt))%nat
       (setSelectedMethod (initialMethod (localStorage w) (Some (supportedMethods prompt)))) w.

(** What [simplewebauthn.startAuthentication] settles with: the response,
    given here as [JSON.stringify] prints it, or a thrown error. *)
Inductive Authentication :=
| Authenticated (authenticationResponse : string)
| Failed (e_message : string).

(** [useWebAuthn], lines 68-88: the part before the [await] ... *)
Definition useWebAuthn_start : M unit :=
  setLocalStorage PREFERRED_TWO_FACTOR_METHOD (JStr "webauthn") ;;
  setConfirming true ;;
  setTwoFactorCode "".

(** ... and the part after it, with [finally] run on both paths. *)
Definition useWebAuthn_resume (a : Authentication) : M unit :=
  match a with
  | Authenticated authenticationResponse =>
      let base64AuthenticationResponse := base64 authenticationResponse in
      resolveAuth {| type := JStr "webauthn"; code := base64AuthenticationResponse |} ;;
      setConfirming false
  | Failed e_message =>
      toast {| variant := "error"; message := e_message |} ;;
      setConfirming false
  end.

(** [cancel], lines 90-95. *)
Definition cancel : M unit :=
  setTwoFactorCode "" ;;
  setConfirming false ;;
  setSelectedMethod JNull ;;
  rejectAuth (createError TWO_FACTOR_AUTH_CANCELED).

(** [confirm], lines 97-113.  [twoFactorCode] and [selectedMethod] are
    the values of the render the callback was made in. *)
Definition confirm (twoFactorCode : string) (selectedMethod : jsval) : M unit :=
  let code := twoFactorCode in
  setConfirming true ;;
  setTwoFactorCode "" ;;
  setSelectedMethod JNull ;;
  when (negb (strict_eq selectedMethod (JStr "recovery_code")))
       (setLocalStorage PREFERRED_TWO_FACTOR_METHOD selectedMethod) ;;
  resolveAuth {| type := selectedMethod; code := code |} ;;
  setConfirming false.

(** [verifyBtnEnabled], lines 125-129, with [twoFactorCode.length] in
    UTF-16 code units. *)
Definition verifyBtnEnabled (prompt : Prompt) (w : World) : bool :=
  (0 <? length (supportedMethods prompt))%nat &&
  ((strict_eq (selectedMethod w) (JStr "recovery_code") && (0 <? js_length (twoFactorCode w))%nat) ||
   (strict_eq (selectedMethod w) (JStr "totp") && (js_length (twoFactorCode w) =? 6)%nat) ||
   strict_eq (selectedMethod w) (JStr "webauthn")).

(** [alternativeMethods], line 131. *)
Definition alternativeMethods (prompt : Prompt) (w : World) : list string :=
  List.filter (fun method => negb (strict_eq (JStr method) (selectedMethod w)))
         (supportedMethods prompt).

(** The three links of lines 186-206. *)
Inductive Method := totp | webauthn | recovery_code.

Definition method_name (m : Method) : string :=
  match m with
  | totp => "totp"
  | webauthn => "webauthn"
  | recovery_code => "recovery_code"
  end.

(** What can happen to the rendered modal. *)
Inductive Event :=
| ClickAlternative (m : Method)
| InputChange (value : string)
| PressEnter
| ClickVerify
| AuthenticationSettled (a : Authentication)
| OpenChange (open : bool)
| RouteChangeStart.

(** The handler the render of lines 133-232 attaches to each event.  An
    element that is not rendered, or is disabled, receives nothing; the
    Enter key reaches [confirm] through [onPressEnter] of the TOTP input.
    The [loading] prop of the Verify button is not taken to block a
    click, and the WebAuthn answer may come at any time. *)
Definition dispatch (prompt : Prompt) (e : Event) : M unit := fun w =>
  match e with
  | ClickAlternative m =>
      when ((1 <? length (supportedMethods prompt))%nat &&
            Array_includes (alternativeMethods prompt w) (JStr (method_name m)))
           (setSelectedMethod (JStr (method_name m))) w
  | InputChange value =>
      when ((strict_eq (selectedMethod w) (JStr "recovery_code") ||
             strict_eq (selectedMethod w) (JStr "totp")) && negb (confirming w))
           (setTwoFactorCode value) w
  | PressEnter =>
      when (strict_eq (selectedMethod w) (JStr "totp") && negb (confirming w))
           (confirm (twoFactorCode w) (selectedMethod w)) w
  | ClickVerify =>
      when (verifyBtnEnabled prompt w)
           (if strict_eq (selectedMethod w) (JStr "webauthn")
            then useWebAuthn_start
            else confirm (twoFactorCode w) (selectedMethod w)) w
  | AuthenticationSettled a => useWebAuthn_resume a w
  | OpenChange open => when (negb open) cancel w
  | RouteChangeStart => cancel w
  end.

End WithLocalStorageKeys.

(** *** The modal as a state machine

    The four states the specification names, read off the hook values
    and the promise: the promise is settled; or [confirming] is set; or
    a method is selected; or none of these. *)
Inductive Phase := Idle | MethodSelected | Confirming | Settled.

#[global] Instance Phase_eq_dec : EqDecision Phase.
Proof. solve_decision. Defined.

Definition phases : list Phase := [Idle; MethodSelected; Confirming; Settled].

Definition phase (w : World) : Phase :=
  match auth w with
  | Pending =>
      if confirming w then Confirming
      else match selectedMethod w with
           | JStr _ => MethodSelected
           | JNull | JUndefined => Idle
           end
  | Resolved _ | Rejected _ => Settled
  end.

(** The transitions of the four-state machine: the states an event may
    lead to from a state. *)
Definition phase_step (p : Phase) (e : Event) : list Phase :=
  match p, e with
  | Settled, _ => [Settled]
  | _, RouteChangeStart => [Settled]
  | _, OpenChange open => if open then [p] else [Settled]
  | _, InputChange _ => [p]
  | Idle, ClickAlternative _ => [Idle; MethodSelected]
  | _, ClickAlternative _ => [p]
  | MethodSelected, PressEnter => [MethodSelected; Settled]
  | _, PressEnter => [p]
  | Idle, ClickVerify => [Idle]
  | MethodSelected, ClickVerify => [MethodSelected; Confirming; Settled]
  | Confirming, ClickVerify => [Confirming; Settled]
  | _, AuthenticationSettled (Authenticated _) => [Settled]
  | Confirming, AuthenticationSettled (Failed _) => [Idle; MethodSelected]
  | _, AuthenticationSettled (Failed _) => [p]
  end.

(** *** Sample inputs

    A value for the storage key, a prompt that offers every method, and
    the modal with a TOTP code typed in. *)
Definition sample_key : string := "preferredTwoFactorMethod".

Definition sample_prompt : Prompt :=
  {| isOpen := true;
     prompt_supportedMethods := Some ["totp"; "webauthn"; "recovery_code"];
     allowRecovery := true;
     isRequired := false |}.

Definition sample_world : World :=
  {| selectedMethod := JStr "totp"; twoFactorCode := "123456"; confirming := false;
     localStorage := ∅; auth := Pending; toasts := [] |}.

End TwoFactor.

(** ** The StyledUpdate component *)

Module StyledUpdate.

(** Scalars found in an update, a form value or a mutation result. *)
Inductive value :=
| VUndefined
| VNull
| VBool (b : bool)
| VNum (n : Z)
| VStr (s : string).

#[global] Instance value_eq_dec : EqDecision value.
Proof. solve_decision. Defined.

Definition truthy (v : value) : bool :=
  match v with
  | VUndefined | VNull => false
  | VBool b => b
  | VNum n => negb (n =? 0)%Z
  | VStr s => negb (s =? "")
  end.

Record Collective := { slug : string; name : string }.

Record FromCollective := {
  fc_id : value;
  fc_slug : string;
  fc_name : string;
  fc_image : string;
  fc_type : string
}.

(** [props.update] *)
Record Update := {
  id : value;
  update_slug : string;
  title : string;
  summary : string;
  html : value;
  isPrivate : bool;
  publishedAt : value;
  createdAt : value;
  userCanSeeUpdate : bool;
  fromCollective : FromCollective
}.

Record LoggedInUser := {
  canEditUpdate : Update -> bool;
  canEditCollective : Collective -> bool
}.

Record Props := {
  collective : Collective;
  update : Update;
  compact : bool;
  editable : bool;
  LoggedInUser_prop : option LoggedInUser
}.

(** [state.mode] takes the three values the class assigns. *)
Inductive Mode := summary_mode | details_mode | edit_mode.

#[global] Instance Mode_eq_dec : EqDecision Mode.
Proof. solve_decision. Defined.

Record State := {
  modified : bool;
  state_update : gmap string value;
  mode : Mode
}.

(** The constructor, lines 357-364. *)
Definition initialState (props : Props) : State :=
  {| modified := false;
     state_update := ∅;
     mode := if compact props then summary_mode else details_mode |}.

(** The two GraphQL documents of lines 572-591 and what [mutate] is
    called with. *)
Inductive Mutation := editUpdateQuery | deleteUpdateQuery.

Inductive Variables :=
| update_variables (update : gmap string value)
| id_variables (id : value).

(** What the component does to the outside, in order. *)
Inductive Effect :=
| WindowConfirm (message : string)
| Mutate (mutation : Mutation) (variables : Variables)
| RouterPushRoute (route : string) (params : list (string * string))
| ConsoleLog (label : string)
| ConsoleError (label : string) (err : string).

(** What the outside answers: the user to [window.confirm], the GraphQL
    client to [mutate] (a result, or a thrown error). *)
Inductive Settled :=
| Fulfilled (data : value)
| RejectedWith (err : string).

Record Env := {
  window_confirm : string -> bool;
  mutate : Mutation -> Variables -> Settled
}.

Record World := { state : State; effects : list Effect }.

(** An [async] method: it returns or throws, and changes the world. *)
Inductive Result (A : Type) :=
| Returned (a : A)
| Thrown (err : string).
Arguments Returned {A} a.
Arguments Thrown {A} err.

Definition M (A : Type) : Type := World -> Result A * World.

Definition ret {A} (a : A) : M A := fun w => (Returned a, w).
Definition bind {A B} (m : M A) (k : A -> M B) : M B := fun w =>
  match m w with
  | (Returned a, w') => k a w'
  | (Thrown err, w') => (Thrown err, w')
  end.
#[global] Instance M_ret : MRet M := @ret.
#[global] Instance M_bind : MBind M := fun A B k m => bind m k.

(** [try { body } catch (err) { handler }] *)
Definition try_catch (body : M unit) (handler : string -> M unit) : M unit := fun w =>
  match body w with
  | (Returned a, w') => (Returned a, w')
  | (Thrown err, w') => handler err w'
  end.

Definition emit (e : Effect) : M unit := fun w =>
  (Returned tt, {| state := state w; effects := effects w ++ [e] |}).

(** [this.setState({ modified, mode })] merges into the state. *)
Definition setState (modified' : bool) (mode' : Mode) : M unit := fun w =>
  (Returned tt,
   {| state := {| modified := modified'; state_update := state_update (state w); mode := mode' |};
      effects := effects w |}).

Definition getMode : M Mode := fun w => (Returned (mode (state w)), w).

Section WithEnv.

Variable env : Env.

(** [confirm(message)] *)
Definition confirm (message : string) : M bool :=
  emit (WindowConfirm message) ;; mret (window_confirm env message).

(** [await mutate({ variables })] *)
Definition await_mutate (mutation : Mutation) (variables : Variables) : M value := fun w =>
  let w' := {| state := state w; effects := effects w ++ [Mutate mutation variables] |} in
  match mutate env mutation variables with
  | Fulfilled data => (Returned data, w')
  | RejectedWith err => (Thrown err, w')
  end.

(** [editUpdateMutation] and [deleteUpdateMutation], lines 593-607: the
    props the [graphql] wrappers add. *)
Definition props_editUpdate (update : gmap string value) : M value :=
  await_mutate editUpdateQuery (update_variables update).

Definition props_deleteUpdate (updateID : value) : M value :=
  await_mutate deleteUpdateQuery (id_variables updateID).

(** [cancelEdit], [edit] and [toggleEdit], lines 379-389. *)
Definition cancelEdit : M unit := setState false details_mode.

Definition edit : M unit := setState false edit_mode.

Definition toggleEdit : M unit :=
  m ← getMode; match m with edit_mode => cancelEdit | _ => edit end.

(** [deleteUpdate], lines 391-400. *)
Definition deleteUpdate (props : Props) : M unit :=
  ok ← confirm "😱 Are you really sure you want to delete this update?";
  if negb ok then mret tt
  else
    try_catch
      (props_deleteUpdate (id (update props)) ;;
       emit (RouterPushRoute "collective" [("slug", slug (collective props))]))
      (fun err => emit (ConsoleError ">>> deleteUpdate error: " err)).

(** [save], lines 402-408.  [update.id = get(this.props, 'update.id')]
    writes the [id] field of the object the form submitted. *)
Definition save (props : Props) (update : gmap string value) : M unit :=
  let update := <["id" := id (StyledUpdate.update props)]> update in
  emit (ConsoleLog ">>> updating ") ;;
  props_editUpdate update ;;
  emit (ConsoleLog ">>> save res") ;;
  setState false details_mode.

End WithEnv.

Definition exec {A} (m : M A) (w : World) : World := snd (m w).

(** *** Rendering

    The element tree [render] returns: components and tags by name,
    props as strings, handlers by the name of the method they are bound
    to, [intl] messages by id and default text. *)
Inductive MessageValue :=
| Plain (s : string)
| FormatDate (date : value) (options : list (string * string)).

#[warnings="-register-all"] Inductive Node :=
| Element (tag : string) (attrs : list (string * string)) (children : list Node)
| FormattedMessage (message_id defaultMessage : string) (values : list (string * MessageValue))
| Text (s : string).

(** [{c && <X />}] *)
Definition cond (c : bool) (n : Node) : list Node := if c then [n] else [].

(** [this.messages], lines 365-376, as [intl.formatMessage] reads them. *)
Definition messages (key : string) : Node :=
  if key =? "edit" then FormattedMessage "update.edit" "edit" []
  else if key =? "cancelEdit" then FormattedMessage "update.cancelEdit" "cancel edit" []
  else if key =? "viewLatestUpdates" then
    FormattedMessage "update.viewLatestUpdates" "View latest updates" []
  else if key =? "pending" then FormattedMessage "update.pending" "pending" []
  else if key =? "paid" then FormattedMessage "update.paid" "paid" []
  else if key =? "approved" then FormattedMessage "update.approved" "approved" []
  else if key =? "rejected" then FormattedMessage "update.rejected" "rejected" []
  else Text "".

(** [renderUpdateMeta], lines 410-468. *)
Definition renderUpdateMeta (st : State) (update : Update) (editable : bool) : Node :=
  Element "Container"
    [("display", "flex"); ("alignItems", "Baseline"); ("color", "#969BA3"); ("data-cy", "meta")]
    (cond (isPrivate update)
       (Element "Box" [("mr", "2")]
          [Element "Lock"
             [("data-tip", "true"); ("data-for", "privateLockText"); ("data-cy", "privateIcon");
              ("size", "12"); ("cursor", "pointer")] [];
           Element "ReactTooltip" [("id", "privateLockText")]
             [FormattedMessage "update.private.lock_text" "This update is private" []]])
     ++ [if truthy (publishedAt update)
         then Element "Box" [("as", "span"); ("mr", "1"); ("fontSize", "12px")]
                [FormattedMessage "update.publishedAtBy" "Published on {date} by"
                   [("date", FormatDate (publishedAt update)
                               [("day", "numeric"); ("month", "long"); ("year", "numeric")])]]
         else Element "Box" [("as", "span"); ("mr", "1"); ("fontSize", "12px")]
                [FormattedMessage "update.createdAt" "created on {date} (draft)"
                   [("date", FormatDate (createdAt update) [])]]]
     ++ [Element "Box" [("as", "span"); ("mr", "2"); ("fontSize", "12px")]
           [Text (fc_name (fromCollective update))]]
     ++ [Element "Role" [("role", "ADMIN")] []]
     ++ cond editable
          (Element "React.Fragment" []
             [Element "Box" [("data-cy", "toggleEditUpdate"); ("mr", "2"); ("fontSize", "12px")]
                [Element "ActionLink" [("onClick", "toggleEdit")]
                   [messages (match mode st with edit_mode => "cancelEdit" | _ => "edit" end)]];
              Element "Box" [("mr", "2"); ("fontSize", "12px")]
                [Element "ActionLink" [("onClick", "deleteUpdate")]
                   [FormattedMessage "update.delete" "delete" []]]])).

(** [renderUpdateTitle], lines 470-488. *)
Definition renderUpdateTitle (props : Props) (st : State) : Node :=
  let update := update props in
  let collective := collective props in
  match mode st with
  | summary_mode =>
      Element "Link" [("route", "/" ++ slug collective ++ "/updates/" ++ update_slug update)]
        [Element "H3" [("data-cy", "updateTitle"); ("color", "#090A0A")] [Text (title update)]]
  | _ => Element "H3" [("data-cy", "updateTitle"); ("color", "#090A0A")] [Text (title update)]
  end.

(** [renderSummary], lines 490-497: [renderUpdateMeta(update)], with
    [editable] left [undefined]. *)
Definition renderSummary (st : State) (update : Update) : Node :=
  Element "React.Fragment" []
    [Element "Container"
       [("my", "1"); ("fontsize", "14px"); ("color", "#4B4E52");
        ("dangerouslySetInnerHTML", summary update)] [];
     renderUpdateMeta st update false].

Definition canEditUpdate_ (props : Props) : bool :=
  match LoggedInUser_prop props with
  | Some u => canEditUpdate u (update props)
  | None => false
  end.

(** [canPublishUpdate], line 502. *)
Definition canPublishUpdate (props : Props) : bool :=
  match LoggedInUser_prop props with
  | Some u => canEditCollective u (collective props) && negb (truthy (publishedAt (update props)))
  | None => false
  end.

(** [renderFullContent], lines 499-529. *)
Definition renderFullContent (props : Props) (st : State) : Node :=
  let update := update props in
  let collective := collective props in
  let canEditUpdate := canEditUpdate_ props in
  let canPublishUpdate := canPublishUpdate props in
  let editable := negb (compact props) && editable props && canEditUpdate in
  Element "React.Fragment" []
    [renderUpdateMeta st update editable;
     Element "Container" []
       (cond (truthy (html update))
          (Element "div"
             [("dangerouslySetInnerHTML",
               match html update with VStr h => h | _ => "" end)] [])
        ++ cond (negb (truthy (html update)))
             (Element "UpdateTextWithData" [] [])
        ++ cond (negb (userCanSeeUpdate update))
             (Element "MessageBox" [("type", "info")]
                [FormattedMessage "update.private.cannot_view_message"
                   "Become a backer of {collective} to see this update"
                   [("collective", Plain (name collective))]])
        ++ cond (truthy (publishedAt update))
             (Element "Link"
                [("route", "/" ++ slug collective ++ "/updates"); ("className", "viewLatestUpdates")]
                [messages "viewLatestUpdates"])
        ++ cond canPublishUpdate (Element "PublishUpdateBtnWithData" [] []))].

(** [renderEditUpdateForm], lines 531-539. *)
Definition renderEditUpdateForm (props : Props) (st : State) : Node :=
  Element "Container" [("display", "flex"); ("flexDirection", "column")]
    [renderUpdateMeta st (update props) true;
     Element "EditUpdateForm" [("onSubmit", "save")] []].

(** [render], lines 541-569. *)
Definition render (props : Props) (st : State) : Node :=
  let update := update props in
  Element "UpdateWrapper" []
    ([Element "AvatarContainer" []
        [Element "a"
           [("href", "/" ++ fc_slug (fromCollective update));
            ("title", fc_name (fromCollective update))]
           [Element "Avatar"
              [("src", fc_image (fromCollective update));
               ("type", fc_type (fromCollective update));
               ("name", fc_name (fromCollective update));
               ("radius", "40")] []]]]
     ++ cond (negb (bool_decide (mode st = edit_mode)))
          (Element "Container" [("display", "flex"); ("flexDirection", "column")]
             ([Element "Box" [("mb", "1")] [renderUpdateTitle props st]]
              ++ cond (bool_decide (mode st = summary_mode)) (renderSummary st update)
              ++ cond (bool_decide (mode st = details_mode)) (renderFullContent props st)))
     ++ cond (bool_decide (mode st = edit_mode)) (renderEditUpdateForm props st)).

(** Every element of a tree, the root first. *)
Fixpoint nodes (n : Node) : list Node :=
  n :: match n with
       | Element _ _ children => flat_map nodes children
       | _ => []
       end.

Definition has_tag (t : string) (n : Node) : bool :=
  match n with
  | Element tag _ _ => tag =? t
  | _ => false
  end.

(** Some element of the tree satisfies [p]. *)
Definition any (p : Node -> bool) (tree : Node) : bool := existsb p (nodes tree).

(** An element of the given component is part of the tree. *)
Definition rendered (t : string) (tree : Node) : bool := any (has_tag t) tree.

Definition is_tooltip (text : string) (n : Node) : bool :=
  match n with
  | Element tag _ children =>
      (tag =? "ReactTooltip") &&
      existsb (fun c => match c with
                        | FormattedMessage _ d _ => d =? text
                        | _ => false
                        end) children
  | _ => false
  end.

(** The tree shows a tooltip with the given default text. *)
Definition tooltip_text (text : string) (tree : Node) : bool := any (is_tooltip text) tree.

(** *** A draft shown in a list of updates

    An admin of the collective looks at an unpublished update that a
    list renders with [compact] set. *)
Definition admin : LoggedInUser :=
  {| canEditUpdate := fun _ => true; canEditCollective := fun _ => true |}.

Definition draft : Update :=
  {| id := VNum 7; update_slug := "hello"; title := "Hello";
     summary := "<p>Hello</p>"; html := VStr "<p>Hello, world</p>";
     isPrivate := false; publishedAt := VNull; createdAt := VStr "2019-05-01";
     userCanSeeUpdate := true;
     fromCollective := {| fc_id := VNum 1; fc_slug := "ann"; fc_name := "Ann";
                          fc_image := "ann.png"; fc_type := "USER" |} |}.

Definition compact_props : Props :=
  {| collective := {| slug := "acme"; name := "Acme" |};
     update := draft; compact := true; editable := true;
     LoggedInUser_prop := Some admin |}.

(** A backend that accepts every mutation, one that refuses every
    mutation, and a user who declines. *)
Definition accepting : Env :=
  {| window_confirm := fun _ => true; mutate := fun _ _ => Fulfilled (VNum 7) |}.

Definition refusing : Env :=
  {| window_confirm := fun _ => true; mutate := fun _ _ => RejectedWith "Unauthorized" |}.

Definition declining : Env :=
  {| window_confirm := fun _ => false; mutate := fun _ _ => Fulfilled (VNum 7) |}.

Definition sample_form : gmap string value := {[ "title" := VStr "Hello again" ]}.

Definition editing : World :=
  {| state := {| modified := true; state_update := ∅; mode := edit_mode |}; effects := [] |}.

End StyledUpdate.

(** ** The modal from mount on, and what it renders *)

Module TwoFactorView.
Import JS TwoFactor.

Section WithLocalStorageKeys.

Variable PREFERRED_TWO_FACTOR_METHOD : string.

(** The three [React.useState] calls of lines 58-60, with the promise of
    the prompt pending. *)
Definition mount (ls : gmap string string) (prompt : Prompt) : World :=
  {| selectedMethod :=
       initialMethod PREFERRED_TWO_FACTOR_METHOD ls (Some (supportedMethods prompt));
     twoFactorCode := "";
     confirming := false;
     localStorage := ls;
     auth := Pending;
     toasts := [] |}.

(** Events one after the other, each on the world the last one left. *)
Fixpoint events (prompt : Prompt) (es : list Event) (w : World) : World :=
  match es with
  | [] => w
  | e :: rest => events prompt rest (exec (dispatch PREFERRED_TWO_FACTOR_METHOD prompt e) w)
  end.

End WithLocalStorageKeys.

Abbreviation Node := StyledUpdate.Node.
Abbreviation Element := StyledUpdate.Element.
Abbreviation FormattedMessage := StyledUpdate.FormattedMessage.
Abbreviation Plain := StyledUpdate.Plain.
Abbreviation cond := StyledUpdate.cond.

Definition bool_attr (b : bool) : string := if b then "true" else "false".

(** [AuthenticatorOption], lines 235-267. *)
Definition AuthenticatorOption (value : string) (supportedMethods : list string)
    (disabled : bool) : Node :=
  Element "AuthenticatorOption"
    [("value", value); ("onChange", "setTwoFactorCode");
     ("supportedMethods", String.concat "," supportedMethods);
     ("disabled", bool_attr disabled); ("onSubmit", "confirm")]
    [Element "div" [("className", "space-y-4")]
       [Element "p" [("className", "text-sm text-muted-foreground")]
          [FormattedMessage "TwoFactorAuth.Setup.Form.InputLabel"
             "Please enter your 6-digit code without any dashes." []];
        Element "Input"
          [("id", "2fa-code-input"); ("name", "2fa-code-input"); ("className", "h-12 text-xl");
           ("type", "text"); ("placeholder", "123456"); ("pattern", "[0-9]{6}");
           ("inputMode", "numeric"); ("value", value); ("onKeyUp", "onPressEnter(onSubmit)");
           ("onChange", "onChange"); ("disabled", bool_attr disabled); ("autoFocus", "true")]
          []]].

(** [RecoveryCodeOptions], lines 269-291. *)
Definition RecoveryCodeOptions (value : string) (disabled : bool) : Node :=
  Element "RecoveryCodeOptions"
    [("value", value); ("onChange", "setTwoFactorCode"); ("disabled", bool_attr disabled)]
    [Element "div" [("className", "space-y-4")]
       [Element "p" [("className", "text-sm text-muted-foreground")]
          [FormattedMessage "TwoFactorAuth.RecoveryCodes.Form.InputLabel"
             "Please enter one of your alphanumeric recovery codes." []];
        Element "Input"
          [("id", "2fa-code-input"); ("name", "2fa-code-input"); ("className", "h-12 text-xl");
           ("type", "text"); ("placeholder", "ABCDEFGHIJKLM123"); ("value", value);
           ("onChange", "onChange"); ("disabled", bool_attr disabled); ("autoFocus", "true")]
          []]].

(** [WebauthnOption], lines 293-299. *)
Definition WebauthnOption : Node :=
  Element "WebauthnOption" []
    [Element "p" [("className", "text-sm text-muted-foreground")]
       [FormattedMessage "" "Use your device for two factor authentication" []]].

(** One entry of the list of alternative methods, lines 186-206. *)
Definition alternative (alternativeMethods : list string) (m : Method) (label : string) :
    list Node :=
  cond (Array_includes alternativeMethods (JStr (method_name m)))
    (Element "li" []
       [Element "StyledLinkButton"
          [("onClick", "setSelectedMethod('" ++ method_name m ++ "')")]
          [FormattedMessage "" label []]]).

(** What [TwoFactorAuthenticationModal] returns, lines 133-232.
    [settingsRoute] is [getSettingsRoute(LoggedInUser.collective,
    'user-security')] when a user is logged in; a message without an id
    has the empty id. *)
Definition TwoFactorAuthenticationModal (settingsRoute : option string) (prompt : Prompt)
    (w : World) : Node :=
  let supportedMethods := supportedMethods prompt in
  let alternativeMethods := alternativeMethods prompt w in
  Element "AlertDialog"
    [("open", bool_attr (isOpen prompt)); ("onOpenChange", "open => { if (!open) cancel() }")]
    [Element "AlertDialogContent" [("withBackdropBlur", "true")]
       [Element "AlertDialogHeader" []
          ([Element "AlertDialogTitle" []
              [if (length supportedMethods =? 0)%nat
               then FormattedMessage "" "You must configure 2FA to access this feature" []
               else FormattedMessage "" "Two Factor Authentication" []]]
           ++ match settingsRoute with
              | Some href =>
                  cond (length supportedMethods =? 0)%nat
                    (Element "AlertDialogDescription" []
                       [FormattedMessage ""
                          "To enable Two-Factor Authentication (2FA), follow the steps <link>here</link>"
                          [("link", Plain href)]])
              | None => []
              end
           ++ cond (strict_eq (selectedMethod w) (JStr "recovery_code"))
                (RecoveryCodeOptions (twoFactorCode w) (confirming w))
           ++ cond (strict_eq (selectedMethod w) (JStr "totp"))
                (AuthenticatorOption (twoFactorCode w) supportedMethods (confirming w))
           ++ cond (strict_eq (selectedMethod w) (JStr "webauthn")) WebauthnOption
           ++ cond (1 <? length supportedMethods)%nat
                (Element "div" [("className", "pt-2")]
                   [Element "p" [("className", "text-sm text-muted-foreground")]
                      [FormattedMessage "" "You can also use alternative methods:" []];
                    Element "ul"
                      [("className", "ml-2 list-inside list-disc text-muted-foreground [&>li]:mt-2")]
                      (alternative alternativeMethods totp "Authenticator Code"
                       ++ alternative alternativeMethods webauthn
                            "U2F (Hardware Key, Passkey, Phone, etc)"
                       ++ alternative alternativeMethods recovery_code "Recovery code")]));
        Element "AlertDialogFooter" []
          (cond (cancellable prompt)
             (Element "AlertDialogCancel" [("disabled", bool_attr (confirming w))]
                [FormattedMessage "actions.cancel" "Cancel" []])
           ++ [Element "Button"
                 [("loading", bool_attr (confirming w));
                  ("disabled", bool_attr (negb (verifyBtnEnabled prompt w)));
                  ("onClick",
                   if strict_eq (selectedMethod w) (JStr "webauthn")
                   then "useWebAuthn" else "confirm")]
                 [if strict_eq (selectedMethod w) (JStr "recovery_code")
                  then FormattedMessage "login.twoFactorAuth.reset" "Reset 2FA" []
                  else FormattedMessage "actions.verify" "Verify" []]])]].

End TwoFactorView.

(** ** What a user can do with a rendered update *)

Module StyledUpdateActions.
Import StyledUpdate.

(** What a user can click in what [render] returns: the anchor around
    the avatar (line 548), the [Link] around the title (lines 475-479),
    the [Link] to the latest updates (lines 521-523), the two
    [ActionLink]s of the metadata line, bound to [toggleEdit] and
    [deleteUpdate], and the submission of [EditUpdateForm], bound to
    [save].  What the child components do on their own
    ([PublishUpdateBtnWithData], the fields of the form) is theirs. *)
Inductive Action :=
| ClickAvatar
| ClickTitle
| ClickViewLatestUpdates
| ClickToggleEdit
| ClickDelete
| SubmitForm (form : gmap string value).

(** Where the three links lead. *)
Definition avatar_href (props : Props) : string :=
  "/" ++ fc_slug (fromCollective (update props)).

Definition title_route (props : Props) : string :=
  "/" ++ slug (collective props) ++ "/updates/" ++ update_slug (update props).

Definition latest_route (props : Props) : string :=
  "/" ++ slug (collective props) ++ "/updates".

(** The component with the targets of the links followed so far. *)
Record Browser := { world : World; followed : list string }.

Definition follow (target : string) (b : Browser) : Browser :=
  {| world := world b; followed := followed b ++ [target] |}.

Definition handle (m : M unit) (b : Browser) : Browser :=
  {| world := exec m (world b); followed := followed b |}.

(** [render] puts the title where the mode is not [edit], and the full
    content where it is [details]. *)
Definition title_link_rendered (props : Props) (st : State) : bool :=
  negb (bool_decide (mode st = edit_mode)) && rendered "Link" (renderUpdateTitle props st).

Definition latest_link_rendered (props : Props) (st : State) : bool :=
  bool_decide (mode st = details_mode) && rendered "Link" (renderFullContent props st).

(** An action reaches its handler, or follows its link, when the element
    that carries it is part of what [render] returns for the current
    state; a link leaves the component as it is. *)
Definition perform (env : Env) (props : Props) (a : Action) (b : Browser) : Browser :=
  let st := state (world b) in
  match a with
  | ClickAvatar =>
      if rendered "a" (render props st) then follow (avatar_href props) b else b
  | ClickTitle =>
      if title_link_rendered props st then follow (title_route props) b else b
  | ClickViewLatestUpdates =>
      if latest_link_rendered props st then follow (latest_route props) b else b
  | ClickToggleEdit =>
      if rendered "ActionLink" (render props st) then handle toggleEdit b else b
  | ClickDelete =>
      if rendered "ActionLink" (render props st) then handle (deleteUpdate env props) b else b
  | SubmitForm form =>
      if rendered "EditUpdateForm" (render props st) then handle (save env props form) b else b
  end.

(** A session: each action with what the outside answers during it.  A
    handler that throws ends alone; the next action finds the world it
    left. *)
Fixpoint session (props : Props) (actions : list (Env * Action)) (b : Browser) : Browser :=
  match actions with
  | [] => b
  | (env, a) :: rest => session props rest (perform env props a b)
  end.

(** A message of [intl] with the given id. *)
Definition is_message (i : string) (n : Node) : bool :=
  match n with
  | FormattedMessage message_id _ _ => message_id =? i
  | _ => false
  end.

Definition has_attr (k v : string) (n : Node) : bool :=
  match n with
  | Element _ attrs _ => existsb (fun a => (fst a =? k) && (snd a =? v)) attrs
  | _ => false
  end.

End StyledUpdateActions.

(** * Properties of the 2FA modal *)

Module TwoFactorFacts.
Import JS TwoFactor.

(** ** Strings, [find] and [||] *)

Lemma eqb_false_iff (a b : string) : (a =? b) = false ↔ a ≠ b.
Proof. rewrite <- String.eqb_neq. reflexivity. Qed.

Lemma strict_eq_true (a b : jsval) : strict_eq a b = true ↔ a = b.
Proof. unfold strict_eq. apply bool_decide_eq_true. Qed.

Lemma strict_eq_false (a b : jsval) : strict_eq a b = false ↔ a ≠ b.
Proof. unfold strict_eq. apply bool_decide_eq_false. Qed.

Lemma strict_eq_JStr (a b : string) : strict_eq (JStr a) (JStr b) = (a =? b).
Proof.
  destruct (a =? b) eqn:E.
  - apply String.eqb_eq in E. subst. apply strict_eq_true. reflexivity.
  - apply eqb_false_iff in E. apply strict_eq_false. congruence.
Qed.

Lemma truthy_JStr (s : string) : s ≠ "" → truthy (JStr s) = true.
Proof. intros H. cbn. apply eqb_false_iff in H. rewrite H. reflexivity. Qed.

(** [find] stops at the first element the predicate accepts. *)
Lemma Array_find_first (p : string → bool) (pre : list string) (m : string) (post : list string) :
  Forall (λ x, p x = false) pre → p m = true →
  Array_find p (pre ++ m :: post)%list = JStr m.
Proof.
  intros Hpre Hm. induction Hpre as [|x pre Hx _ IH]; cbn.
  - rewrite Hm. reflexivity.
  - rewrite Hx. exact IH.
Qed.

Lemma Array_find_none (p : string → bool) (l : list string) :
  Forall (λ x, p x = false) l → Array_find p l = JUndefined.
Proof.
  induction 1 as [|x l Hx _ IH]; cbn; [reflexivity|]. rewrite Hx. exact IH.
Qed.

(** Looking for a name that occurs in the list finds that name. *)
Lemma Array_find_elem_of (s : string) (l : list string) :
  s ∈ l → Array_find (λ method, strict_eq (JStr method) (JStr s)) l = JStr s.
Proof.
  induction 1 as [x l|x y l _ IH]; cbn.
  - rewrite strict_eq_JStr, String.eqb_refl. reflexivity.
  - rewrite strict_eq_JStr. destruct (y =? x) eqn:E; [|exact IH].
    apply String.eqb_eq in E. congruence.
Qed.

Lemma Array_find_not_elem_of (v : jsval) (l : list string) :
  (∀ s, v = JStr s → s ∉ l) →
  Array_find (λ method, strict_eq (JStr method) v) l = JUndefined.
Proof.
  intros H. apply Array_find_none. apply Forall_forall. intros x Hx.
  apply strict_eq_false. intros E. exact (H x (eq_sym E) Hx).
Qed.

(** A search that finds nothing, or the empty string, is falsy. *)
Lemma Array_find_falsy (v : jsval) (l : list string) :
  (∀ s, v = JStr s → s ∉ l ∨ s = "") →
  truthy (Array_find (λ method, strict_eq (JStr method) v) l) = false.
Proof.
  induction l as [|x l IH]; intros H; cbn; [reflexivity|].
  destruct (strict_eq (JStr x) v) eqn:E.
  - apply strict_eq_true in E. destruct (H x (eq_sym E)) as [Hx | ->].
    + exfalso. apply Hx. apply list_elem_of_here.
    + reflexivity.
  - apply IH. intros s Hs. destruct (H s Hs) as [Hn | ->]; [left|right; reflexivity].
    intros Hin. apply Hn. apply list_elem_of_further, Hin.
Qed.

Lemma getFromLocalStorage_JStr (ls : gmap string string) (key s : string) :
  getFromLocalStorage ls key = JStr s ↔ ls !! key = Some s.
Proof.
  unfold getFromLocalStorage. destruct (ls !! key); split; congruence.
Qed.

Lemma length_ne_1 {A} (l : list A) : length l ≠ 1 → (length l =? 1)%nat = false.
Proof. intros H. apply Nat.eqb_neq. exact H. Qed.

Section Facts.

Variable PREFERRED_TWO_FACTOR_METHOD : string.

Abbreviation initialMethod := (initialMethod PREFERRED_TWO_FACTOR_METHOD).

(** A list of 2FA methods: a method has a name, as ['totp'],
    ['webauthn'] and ['recovery_code'] have; no method is the empty
    string. *)
Definition method_names (l : list string) : Prop := Forall (λ m, m ≠ "") l.

(** C2.  [initialMethod] answers [null] for an absent list and the single
    method of a one-element list, whatever is stored.  For any other list
    of methods it answers the method stored under
    [PREFERRED_TWO_FACTOR_METHOD] when the list has that method, and
    otherwise the first method, in list order, that is not
    ['recovery_code']. *)
Theorem initialMethod_spec (ls : gmap string string) :
  initialMethod ls None = JNull ∧
  (∀ m, initialMethod ls (Some [m]) = JStr m) ∧
  (∀ l p, method_names l → length l ≠ 1 →
     ls !! PREFERRED_TWO_FACTOR_METHOD = Some p → p ∈ l →
     initialMethod ls (Some l) = JStr p) ∧
  (∀ (pre : list string) m post, length (pre ++ m :: post)%list ≠ 1 →
     (∀ p, ls !! PREFERRED_TWO_FACTOR_METHOD = Some p → p ∉ (pre ++ m :: post)%list) →
     Forall (λ x, x = "recovery_code") pre → m ≠ "recovery_code" →
     initialMethod ls (Some (pre ++ m :: post)%list) = JStr m).
Proof.
  repeat split.
  - intros l p Hnames Hlen Hp Hin. unfold TwoFactor.initialMethod.
    rewrite (length_ne_1 _ Hlen).
    apply getFromLocalStorage_JStr in Hp. rewrite Hp.
    rewrite (Array_find_elem_of _ _ Hin). unfold js_or.
    rewrite truthy_JStr; [reflexivity|].
    unfold method_names in Hnames. rewrite Forall_forall in Hnames. auto.
  - intros pre m post Hlen Hp Hpre Hm. unfold TwoFactor.initialMethod.
    rewrite (length_ne_1 _ Hlen).
    rewrite Array_find_not_elem_of.
    + cbn. apply Array_find_first.
      * eapply Forall_impl; [exact Hpre|]. cbn. intros x ->. reflexivity.
      * apply eqb_false_iff in Hm. rewrite Hm. reflexivity.
    + intros s Hs. apply getFromLocalStorage_JStr in Hs. auto.
Qed.

(** The empty list and a list of recovery codes only have no fallback:
    [find] answers [undefined]. *)
Lemma initialMethod_no_fallback (ls : gmap string string) (l : list string) :
  length l ≠ 1 → Forall (λ x, x = "recovery_code") l →
  (∀ p, ls !! PREFERRED_TWO_FACTOR_METHOD = Some p → p ∉ l) →
  initialMethod ls (Some l) = JUndefined.
Proof.
  intros Hlen Hall Hp. unfold TwoFactor.initialMethod. rewrite (length_ne_1 _ Hlen).
  rewrite Array_find_not_elem_of.
  - cbn. apply Array_find_none. eapply Forall_impl; [exact Hall|].
    cbn. intros x ->. reflexivity.
  - intros s Hs. apply getFromLocalStorage_JStr in Hs. auto.
Qed.

(** A string has no code unit exactly when it is empty. *)
Lemma js_length_pos (s : string) : 0 < js_length s ↔ s ≠ "".
Proof.
  unfold js_length. destruct s as [|[b0 b1 b2 b3 b4 b5 b6 b7] rest].
  - cbn. split; [lia|congruence].
  - cbn. split; [discriminate|]. intros _.
    destruct b7, b6, b5, b4, b3; cbn; lia.
Qed.

(** A character below U+0080 is one byte and one code unit. *)
Fixpoint is_ascii (s : string) : bool :=
  match s with
  | EmptyString => true
  | String (Ascii _ _ _ _ _ _ _ b7) rest => negb b7 && is_ascii rest
  end.

Lemma js_length_ascii (s : string) : is_ascii s = true → js_length s = String.length s.
Proof.
  unfold js_length. induction s as [|[b0 b1 b2 b3 b4 b5 b6 b7] rest IH]; cbn; [reflexivity|].
  destruct b7; cbn; [discriminate|]. intros H. rewrite (IH H). reflexivity.
Qed.

(** The length is in code units, not in bytes: six for five digits and
    an accented letter, two for a character outside the basic plane. *)
Example js_length_samples :
  js_length "12345é" = 6 ∧ js_length "1234é" = 5 ∧ js_length "😀" = 2 ∧ js_length "123456" = 6.
Proof. repeat split; reflexivity. Qed.

(** C4.  The Verify button is enabled exactly when some method is
    supported and the selected method is ['recovery_code'] with a
    non-empty code, ['totp'] with a code of length 6, or ['webauthn']. *)
Theorem verifyBtnEnabled_iff (prompt : Prompt) (w : World) :
  verifyBtnEnabled prompt w = true ↔
  supportedMethods prompt ≠ [] ∧
  ((selectedMethod w = JStr "recovery_code" ∧ twoFactorCode w ≠ "") ∨
   (selectedMethod w = JStr "totp" ∧ js_length (twoFactorCode w) = 6) ∨
   selectedMethod w = JStr "webauthn").
Proof.
  unfold verifyBtnEnabled.
  rewrite andb_true_iff, !orb_true_iff, !andb_true_iff, !strict_eq_true.
  rewrite Nat.ltb_lt, Nat.ltb_lt, Nat.eqb_eq.
  assert (Hl : 0 < length (supportedMethods prompt) ↔ supportedMethods prompt ≠ []).
  { destruct (supportedMethods prompt); cbn; split; try lia; congruence. }
  rewrite Hl, js_length_pos. tauto.
Qed.

(** ** Running the handlers *)

Ltac run :=
  unfold exec, dispatch, confirm, cancel, useWebAuthn_start, useWebAuthn_resume,
    onSupportedMethodsChange, when, resolveAuth, rejectAuth, settle, toast,
    setLocalStorage, setSelectedMethod, setTwoFactorCode, setConfirming,
    mbind, M_bind, bind, mret, M_ret, ret;
  cbn.

Ltac split_ifs :=
  repeat match goal with
         | |- context [if ?b then _ else _] =>
             first [ let v := eval vm_compute in b in
                     match v with
                     | true => change b with true
                     | false => change b with false
                     end; cbn
                   | destruct b eqn:?; cbn ]
         end.

(** The Verify button is disabled while no method is selected. *)
Lemma verifyBtnEnabled_selected (prompt : Prompt) (w : World) :
  verifyBtnEnabled prompt w = true → ∃ s, selectedMethod w = JStr s.
Proof.
  unfold verifyBtnEnabled. destruct (selectedMethod w) as [| |s].
  - rewrite andb_false_r. discriminate.
  - rewrite andb_false_r. discriminate.
  - eauto.
Qed.

(** A guard that cannot hold. *)
Ltac absurd_guard :=
  exfalso;
  match goal with
  | H : verifyBtnEnabled _ _ = true |- _ =>
      apply verifyBtnEnabled_selected in H; destruct H as [? H]; discriminate H
  | H : _ = true |- _ =>
      rewrite ?andb_false_r in H; try (vm_compute in H); discriminate H
  end.

Abbreviation confirm := (confirm PREFERRED_TWO_FACTOR_METHOD).
Abbreviation useWebAuthn_start := (useWebAuthn_start PREFERRED_TWO_FACTOR_METHOD).
Abbreviation dispatch := (dispatch PREFERRED_TWO_FACTOR_METHOD).

Lemma confirm_auth (w : World) (c : string) (m : jsval) :
  auth w = Pending → auth (exec (confirm c m) w) = Resolved {| type := m; code := c |}.
Proof. intros H. run. split_ifs; rewrite H; reflexivity. Qed.

Lemma cancel_auth (w : World) :
  auth w = Pending → auth (exec cancel w) = Rejected (createError TWO_FACTOR_AUTH_CANCELED).
Proof. intros H. run. rewrite H. reflexivity. Qed.

(** C1.  While the promise is pending: [confirm] resolves it with the
    selected method as type and the entered code as code, through the
    Verify button (with ['totp'] or ['recovery_code'] selected) and through
    the Enter key of the TOTP input; a completed WebAuthn assertion
    resolves it with type ['webauthn'] and the base64 encoding of the
    assertion as code; [cancel], closing the dialog and leaving the page
    reject it with a [TWO_FACTOR_AUTH_CANCELED] error. *)
Theorem auth_settled_by_user_input (prompt : Prompt) (w : World) :
  auth w = Pending →
  (∀ c m, auth (exec (confirm c m) w) = Resolved {| type := m; code := c |}) ∧
  (∀ m, m = "totp" ∨ m = "recovery_code" →
     selectedMethod w = JStr m → verifyBtnEnabled prompt w = true →
     auth (exec (dispatch prompt ClickVerify) w)
     = Resolved {| type := JStr m; code := twoFactorCode w |}) ∧
  (selectedMethod w = JStr "totp" → confirming w = false →
     auth (exec (dispatch prompt PressEnter) w)
     = Resolved {| type := JStr "totp"; code := twoFactorCode w |}) ∧
  (∀ r, auth (exec (dispatch prompt (AuthenticationSettled (Authenticated r))) w)
        = Resolved {| type := JStr "webauthn"; code := base64 r |}) ∧
  auth (exec cancel w) = Rejected (createError TWO_FACTOR_AUTH_CANCELED) ∧
  auth (exec (dispatch prompt (OpenChange false)) w)
  = Rejected (createError TWO_FACTOR_AUTH_CANCELED) ∧
  auth (exec (dispatch prompt RouteChangeStart) w)
  = Rejected (createError TWO_FACTOR_AUTH_CANCELED).
Proof.
  intros Hp. split; [|split; [|split; [|split; [|split; [|split]]]]].
  - intros c m. apply confirm_auth, Hp.
  - intros m Hm Hsel Hen. unfold exec, TwoFactor.dispatch, when. cbv beta.
    rewrite Hen, Hsel.
    destruct Hm as [-> | ->]; cbn; apply (confirm_auth w _ _ Hp).
  - intros Hsel Hc. unfold exec, TwoFactor.dispatch, when. cbv beta.
    rewrite Hsel, Hc. cbn.
    apply (confirm_auth w _ _ Hp).
  - intros r. run. rewrite Hp. reflexivity.
  - apply cancel_auth, Hp.
  - apply cancel_auth, Hp.
  - apply cancel_auth, Hp.
Qed.

(** Nothing else settles the promise: a failed WebAuthn assertion only
    shows a toast, and choosing a method, typing or starting WebAuthn
    leave the promise as it is. *)
Lemma other_events_keep_auth (prompt : Prompt) (w : World) (e : Event) :
  match e with
  | ClickAlternative _ | InputChange _ | OpenChange true
  | AuthenticationSettled (Failed _) => True
  | ClickVerify => selectedMethod w = JStr "webauthn"
  | _ => False
  end →
  auth (exec (dispatch prompt e) w) = auth w.
Proof.
  destruct e as [m|v| | |[r|msg]|[|]|]; intros H; try contradiction; run;
    try rewrite H; cbn; split_ifs; reflexivity.
Qed.

(** Every handler leaves local storage alone or writes the one key. *)
Lemma dispatch_localStorage (prompt : Prompt) (e : Event) (w : World) :
  localStorage (exec (dispatch prompt e) w) = localStorage w ∨
  ∃ v, localStorage (exec (dispatch prompt e) w)
       = <[PREFERRED_TWO_FACTOR_METHOD := v]> (localStorage w).
Proof.
  destruct e as [m|v| | |[r|msg]|[|]|]; run; split_ifs; eauto.
Qed.

(** C7.  [confirm] with ['totp'] or ['webauthn'] selected, and
    [useWebAuthn], store the method used under
    [PREFERRED_TWO_FACTOR_METHOD]; [confirm] with ['recovery_code']
    selected leaves local storage as it is; and no event of the modal
    changes what is stored under another key. *)
Theorem preferred_method_stored (prompt : Prompt) (w : World) :
  (∀ c m, m = "totp" ∨ m = "webauthn" →
     localStorage (exec (confirm c (JStr m)) w)
     = <[PREFERRED_TWO_FACTOR_METHOD := m]> (localStorage w)) ∧
  localStorage (exec useWebAuthn_start w)
  = <[PREFERRED_TWO_FACTOR_METHOD := "webauthn"]> (localStorage w) ∧
  (selectedMethod w = JStr "webauthn" → verifyBtnEnabled prompt w = true →
     localStorage (exec (dispatch prompt ClickVerify) w)
     = <[PREFERRED_TWO_FACTOR_METHOD := "webauthn"]> (localStorage w)) ∧
  (∀ c, localStorage (exec (confirm c (JStr "recovery_code")) w) = localStorage w) ∧
  (∀ e key, key ≠ PREFERRED_TWO_FACTOR_METHOD →
     localStorage (exec (dispatch prompt e) w) !! key = localStorage w !! key).
Proof.
  split; [|split; [|split; [|split]]].
  - intros c m [-> | ->]; reflexivity.
  - reflexivity.
  - intros Hsel Hen. unfold exec, TwoFactor.dispatch, when. cbv beta.
    rewrite Hen, Hsel. reflexivity.
  - intros c. reflexivity.
  - intros e key Hkey. destruct (dispatch_localStorage prompt e w) as [-> | [v ->]].
    + reflexivity.
    + apply lookup_insert_ne. congruence.
Qed.

(** C3.  The modal has the four states [Idle], [MethodSelected],
    [Confirming] and [Settled], and every event takes it from its state
    to a state the four-state machine allows. *)
Theorem modal_state_machine (prompt : Prompt) (e : Event) (w : World) :
  length phases = 4 ∧
  (∀ p : Phase, p ∈ phases) ∧
  phase (exec (dispatch prompt e) w) ∈ phase_step (phase w) e.
Proof.
  split; [reflexivity|]. split.
  - intros []; unfold phases; set_solver.
  - destruct w as [sel c cf ls a ts].
    destruct e as [m|v| | |[r|msg]|[|]|];
      unfold phase; run;
      destruct a, cf, sel; cbn; split_ifs; cbn; first [set_solver | absurd_guard].
Qed.

End Facts.

(** ** The theorems at the sample inputs *)

Lemma initialMethod_spec_witness :
  initialMethod sample_key {[sample_key := "webauthn"]}
    (Some ["recovery_code"; "totp"; "webauthn"]) = JStr "webauthn" ∧
  initialMethod sample_key ∅ (Some ["recovery_code"; "totp"; "webauthn"]) = JStr "totp".
Proof.
  split.
  - destruct (initialMethod_spec sample_key {[sample_key := "webauthn"]}) as (_ & _ & H & _).
    apply H.
    + repeat constructor; discriminate.
    + discriminate.
    + apply lookup_singleton_eq.
    + do 2 apply list_elem_of_further. apply list_elem_of_here.
  - destruct (initialMethod_spec sample_key ∅) as (_ & _ & _ & H).
    apply (H ["recovery_code"] "totp" ["webauthn"]).
    + discriminate.
    + intros p Hp. rewrite lookup_empty in Hp. discriminate Hp.
    + repeat constructor.
    + discriminate.
Defined.

Lemma auth_settled_by_user_input_witness :
  auth sample_world = Pending ∧
  auth (exec (dispatch sample_key sample_prompt ClickVerify) sample_world)
  = Resolved {| type := JStr "totp"; code := "123456" |} ∧
  auth (exec (dispatch sample_key sample_prompt (AuthenticationSettled (Authenticated "{}")))
          sample_world)
  = Resolved {| type := JStr "webauthn"; code := "e30=" |} ∧
  auth (exec (dispatch sample_key sample_prompt (OpenChange false)) sample_world)
  = Rejected (createError TWO_FACTOR_AUTH_CANCELED).
Proof.
  split; [reflexivity|].
  destruct (auth_settled_by_user_input sample_key sample_prompt sample_world eq_refl)
    as (_ & Hverify & _ & Hwebauthn & _ & Hclose & _).
  split; [|split].
  - apply (Hverify "totp"); [left|..]; reflexivity.
  - apply (Hwebauthn "{}").
  - apply Hclose.
Defined.

Lemma preferred_method_stored_witness :
  localStorage (exec (dispatch sample_key sample_prompt ClickVerify) sample_world)
    !! "accessToken" = None ∧
  localStorage (exec (confirm sample_key "123456" (JStr "totp")) sample_world)
  = {[sample_key := "totp"]}.
Proof.
  destruct (preferred_method_stored sample_key sample_prompt sample_world)
    as (Hconfirm & _ & _ & _ & Hother).
  split.
  - rewrite Hother; [apply lookup_empty|discriminate].
  - rewrite Hconfirm; [|left; reflexivity]. apply insert_empty.
Defined.

(** A run through the four states: a method is chosen, WebAuthn is
    started, and the assertion completes. *)
Example webauthn_run :
  let idle := {| selectedMethod := JNull; twoFactorCode := ""; confirming := false;
                 localStorage := ∅; auth := Pending; toasts := [] |} in
  let w1 := exec (dispatch sample_key sample_prompt (ClickAlternative webauthn)) idle in
  let w2 := exec (dispatch sample_key sample_prompt ClickVerify) w1 in
  let w3 := exec (dispatch sample_key sample_prompt (AuthenticationSettled (Authenticated "{}"))) w2 in
  [phase idle; phase w1; phase w2; phase w3] = [Idle; MethodSelected; Confirming; Settled].
Proof. reflexivity. Qed.

End TwoFactorFacts.

(** * Properties of the StyledUpdate component *)

Module StyledUpdateFacts.
Import StyledUpdate.

(** ** Reading a tree *)

Lemma existsb_cond (f : Node → bool) (b : bool) (n : Node) :
  existsb f (cond b n) = b && f n.
Proof. destruct b; cbn; [apply orb_false_r|reflexivity]. Qed.

Lemma existsb_flat_map {A B} (f : B → bool) (g : A → list B) (l : list A) :
  existsb f (flat_map g l) = existsb (λ a, existsb f (g a)) l.
Proof.
  induction l as [|a l IH]; cbn; [reflexivity|].
  rewrite existsb_app, IH. reflexivity.
Qed.

(** [p] holds somewhere in a tree when it holds of the root or somewhere
    in a child. *)
Lemma any_Element (p : Node → bool) (tag : string) (attrs : list (string * string))
    (children : list Node) :
  any p (Element tag attrs children)
  = p (Element tag attrs children) || existsb (any p) children.
Proof. unfold any. cbn. rewrite existsb_flat_map. reflexivity. Qed.

Lemma any_if (p : Node → bool) (b : bool) (n1 n2 : Node) :
  any p (if b then n1 else n2) = if b then any p n1 else any p n2.
Proof. destruct b; reflexivity. Qed.

Create Rewrite HintDb tree.
Lemma any_Text (p : Node → bool) (s : string) : any p (Text s) = p (Text s).
Proof. unfold any. cbn. apply orb_false_r. Qed.

Lemma any_FormattedMessage (p : Node → bool) (i d : string) (v : list (string * MessageValue)) :
  any p (FormattedMessage i d v) = p (FormattedMessage i d v).
Proof. unfold any. cbn. apply orb_false_r. Qed.

#[local] Hint Rewrite any_Element any_if any_Text any_FormattedMessage
  existsb_cond (@existsb_app Node) : tree.

#[local] Arguments any : simpl never.

Ltac tree := repeat (autorewrite with tree; cbn).

(** Where the publish button is not: the metadata line, the title, the
    summary and the edit form. *)
Lemma publish_renderUpdateMeta (st : State) (u : Update) (e : bool) :
  rendered "PublishUpdateBtnWithData" (renderUpdateMeta st u e) = false.
Proof.
  unfold rendered, renderUpdateMeta.
  destruct (isPrivate u), (truthy (publishedAt u)), e, (mode st); reflexivity.
Qed.

Lemma publish_renderUpdateTitle (props : Props) (st : State) :
  rendered "PublishUpdateBtnWithData" (renderUpdateTitle props st) = false.
Proof. unfold rendered, renderUpdateTitle. destruct (mode st); reflexivity. Qed.

Lemma publish_renderSummary (st : State) (u : Update) :
  rendered "PublishUpdateBtnWithData" (renderSummary st u) = false.
Proof.
  pose proof (publish_renderUpdateMeta st u false) as H.
  unfold rendered, renderSummary in *. tree.
  rewrite H. reflexivity.
Qed.

Lemma publish_renderEditUpdateForm (props : Props) (st : State) :
  rendered "PublishUpdateBtnWithData" (renderEditUpdateForm props st) = false.
Proof.
  pose proof (publish_renderUpdateMeta st (update props) true) as H.
  unfold rendered, renderEditUpdateForm in *. tree.
  rewrite H. reflexivity.
Qed.

(** In the full content the button is there when [canPublishUpdate]
    holds. *)
Lemma publish_renderFullContent (props : Props) (st : State) :
  rendered "PublishUpdateBtnWithData" (renderFullContent props st) = canPublishUpdate props.
Proof.
  unfold renderFullContent. cbv zeta.
  generalize (negb (compact props) && editable props && canEditUpdate_ props).
  intros e. pose proof (publish_renderUpdateMeta st (update props) e) as H.
  unfold rendered in *. tree. rewrite H.
  destruct (truthy (html (update props))), (userCanSeeUpdate (update props)),
    (truthy (publishedAt (update props))), (canPublishUpdate props); reflexivity.
Qed.

(** [render] shows the full content in [details] mode only. *)
Lemma publish_render (props : Props) (st : State) :
  rendered "PublishUpdateBtnWithData" (render props st)
  = bool_decide (mode st = details_mode) && canPublishUpdate props.
Proof.
  pose proof (publish_renderUpdateTitle props st) as Ht.
  pose proof (publish_renderSummary st (update props)) as Hs.
  pose proof (publish_renderFullContent props st) as Hf.
  pose proof (publish_renderEditUpdateForm props st) as He.
  unfold rendered, render in *. cbv zeta. tree.
  rewrite Ht, Hs, Hf, He. destruct (mode st), (canPublishUpdate props); reflexivity.
Qed.

Lemma canPublishUpdate_true (props : Props) :
  canPublishUpdate props = true ↔
  (∃ u, LoggedInUser_prop props = Some u ∧ canEditCollective u (collective props) = true) ∧
  truthy (publishedAt (update props)) = false.
Proof.
  unfold canPublishUpdate. destruct (LoggedInUser_prop props) as [u|].
  - rewrite andb_true_iff, negb_true_iff. split.
    + intros [H1 H2]. eauto.
    + intros [(u' & Hu & H1) H2]. injection Hu as <-. auto.
  - split; [discriminate|]. intros [(u' & Hu & _) _]. discriminate.
Qed.

(** The publish button is not there whenever a logged-in user can edit
    the collective and the update is not published: not for a draft in a
    list, where the component starts in [summary] mode, which
    shows no full content. *)
Lemma publish_hidden_in_summary :
  ¬ (rendered "PublishUpdateBtnWithData" (render compact_props (initialState compact_props)) = true
     ↔ (∃ u, LoggedInUser_prop compact_props = Some u
             ∧ canEditCollective u (collective compact_props) = true)
       ∧ truthy (publishedAt (update compact_props)) = false).
Proof.
  intros [_ H].
  assert (Hc : rendered "PublishUpdateBtnWithData"
                 (render compact_props (initialState compact_props)) = false)
    by reflexivity.
  rewrite Hc in H. discriminate H. split; [|reflexivity].
  exists admin. split; reflexivity.
Qed.

(** C8, amended.  The publish button is rendered exactly when the
    component is in [details] mode, a logged-in user can edit the
    collective and the update has no [publishedAt]; within the full
    content the mode plays no part; and a published update never shows
    the button. *)
Theorem publish_rendered_iff (props : Props) (st : State) :
  (rendered "PublishUpdateBtnWithData" (render props st) = true ↔
   mode st = details_mode ∧
   (∃ u, LoggedInUser_prop props = Some u ∧ canEditCollective u (collective props) = true) ∧
   truthy (publishedAt (update props)) = false) ∧
  (rendered "PublishUpdateBtnWithData" (renderFullContent props st) = true ↔
   (∃ u, LoggedInUser_prop props = Some u ∧ canEditCollective u (collective props) = true) ∧
   truthy (publishedAt (update props)) = false) ∧
  (truthy (publishedAt (update props)) = true →
   rendered "PublishUpdateBtnWithData" (render props st) = false).
Proof.
  rewrite publish_render, publish_renderFullContent, andb_true_iff,
    bool_decide_eq_true, canPublishUpdate_true.
  split; [reflexivity|]. split; [reflexivity|].
  intros Hp. apply andb_false_iff. right.
  apply not_true_iff_false. rewrite canPublishUpdate_true. intros [_ H]. congruence.
Qed.

(** ** The private-lock indicator *)

Section MetaOnly.

(** A question about [Lock] and [ReactTooltip] elements only, answered
    by the metadata line with the privacy flag. *)
Variable p : Node → bool.
Hypothesis p_Element : ∀ tag attrs children,
  tag ≠ "Lock" → tag ≠ "ReactTooltip" → p (Element tag attrs children) = false.
Hypothesis p_FormattedMessage : ∀ i d v, p (FormattedMessage i d v) = false.
Hypothesis p_Text : ∀ s, p (Text s) = false.
Hypothesis p_meta : ∀ st u e, any p (renderUpdateMeta st u e) = isPrivate u.

Ltac elsewhere :=
  repeat (rewrite p_Element by discriminate);
  rewrite ?p_FormattedMessage, ?p_Text, ?p_meta; cbn;
  rewrite ?andb_false_r, ?orb_false_r; cbn.

Lemma any_renderUpdateTitle (props : Props) (st : State) :
  any p (renderUpdateTitle props st) = false.
Proof. unfold renderUpdateTitle. destruct (mode st); tree; elsewhere; reflexivity. Qed.

Lemma any_renderSummary (st : State) (u : Update) :
  any p (renderSummary st u) = isPrivate u.
Proof. unfold renderSummary. tree. elsewhere. reflexivity. Qed.

Lemma any_renderEditUpdateForm (props : Props) (st : State) :
  any p (renderEditUpdateForm props st) = isPrivate (update props).
Proof. unfold renderEditUpdateForm. tree. elsewhere. reflexivity. Qed.

Lemma any_renderFullContent (props : Props) (st : State) :
  any p (renderFullContent props st) = isPrivate (update props).
Proof.
  unfold renderFullContent. cbv zeta. tree. elsewhere. reflexivity.
Qed.

Lemma any_render (props : Props) (st : State) :
  any p (render props st) = isPrivate (update props).
Proof.
  unfold render. cbv zeta. tree.
  rewrite any_renderUpdateTitle, any_renderSummary, any_renderFullContent,
    any_renderEditUpdateForm.
  elsewhere. destruct (mode st), (isPrivate (update props)); reflexivity.
Qed.

End MetaOnly.

Lemma has_tag_other (t tag : string) (attrs : list (string * string)) (children : list Node) :
  tag ≠ t → has_tag t (Element tag attrs children) = false.
Proof. intros H. cbn. apply String.eqb_neq. exact H. Qed.

Lemma is_tooltip_other (text tag : string) (attrs : list (string * string))
    (children : list Node) :
  tag ≠ "ReactTooltip" → is_tooltip text (Element tag attrs children) = false.
Proof. intros H. cbn. apply String.eqb_neq in H. rewrite H. reflexivity. Qed.

Ltac decide_meta st u e :=
  unfold renderUpdateMeta;
  destruct (isPrivate u), (truthy (publishedAt u)), e, (mode st); reflexivity.

Lemma Lock_renderUpdateMeta (st : State) (u : Update) (e : bool) :
  any (has_tag "Lock") (renderUpdateMeta st u e) = isPrivate u.
Proof. decide_meta st u e. Qed.

Lemma ReactTooltip_renderUpdateMeta (st : State) (u : Update) (e : bool) :
  any (has_tag "ReactTooltip") (renderUpdateMeta st u e) = isPrivate u.
Proof. decide_meta st u e. Qed.

Lemma tooltip_renderUpdateMeta (st : State) (u : Update) (e : bool) :
  any (is_tooltip "This update is private") (renderUpdateMeta st u e) = isPrivate u.
Proof. decide_meta st u e. Qed.

(** C9.  The metadata line shows the lock icon, and a tooltip with the
    text 'This update is private', when [update.isPrivate] is true, and
    neither the icon nor a tooltip when it is false; and so does the
    whole component, in each of its modes. *)
Theorem private_lock_follows_isPrivate (props : Props) (st : State) (editable : bool) :
  (rendered "Lock" (renderUpdateMeta st (update props) editable) = isPrivate (update props) ∧
   rendered "ReactTooltip" (renderUpdateMeta st (update props) editable)
   = isPrivate (update props) ∧
   tooltip_text "This update is private" (renderUpdateMeta st (update props) editable)
   = isPrivate (update props)) ∧
  (rendered "Lock" (render props st) = isPrivate (update props) ∧
   rendered "ReactTooltip" (render props st) = isPrivate (update props) ∧
   tooltip_text "This update is private" (render props st) = isPrivate (update props)).
Proof.
  unfold rendered, tooltip_text. repeat split.
  - apply Lock_renderUpdateMeta.
  - apply ReactTooltip_renderUpdateMeta.
  - apply tooltip_renderUpdateMeta.
  - apply any_render; try reflexivity.
    + intros tag attrs children H _. apply has_tag_other, H.
    + apply Lock_renderUpdateMeta.
  - apply any_render; try reflexivity.
    + intros tag attrs children _ H. apply has_tag_other, H.
    + apply ReactTooltip_renderUpdateMeta.
  - apply any_render; try reflexivity.
    + intros tag attrs children _ H. apply is_tooltip_other, H.
    + apply tooltip_renderUpdateMeta.
Qed.

(** ** The save and delete actions *)

Ltac run :=
  unfold exec, save, deleteUpdate, try_catch, confirm, props_editUpdate,
    props_deleteUpdate, await_mutate, emit, setState,
    mbind, M_bind, bind, mret, M_ret, ret;
  cbn.

Abbreviation delete_message := "😱 Are you really sure you want to delete this update?".

(** What [save] sends: the submitted fields, with [id] set to the id of
    the update shown. *)
Definition sent_update (props : Props) (form : gmap string value) : gmap string value :=
  <["id" := id (update props)]> form.

Lemma sent_update_lookup (props : Props) (form : gmap string value) (k : string) :
  sent_update props form !! k = if decide (k = "id") then Some (id (update props)) else form !! k.
Proof.
  unfold sent_update. rewrite lookup_insert. repeat case_decide; congruence.
Qed.

(** The actions are not unconditional.  With a user who declines,
    [deleteUpdate] calls no mutation; with a backend that refuses, it
    does not navigate, and [save] throws and leaves the component in
    [edit] mode with [modified] as it was. *)
Lemma actions_need_consent_and_success :
  (∀ variables, Mutate deleteUpdateQuery variables
                ∉ effects (exec (deleteUpdate declining compact_props) editing)) ∧
  (∀ route params, RouterPushRoute route params
                   ∉ effects (exec (deleteUpdate refusing compact_props) editing)) ∧
  fst (save refusing compact_props sample_form editing) = Thrown "Unauthorized" ∧
  mode (state (exec (save refusing compact_props sample_form) editing)) = edit_mode ∧
  modified (state (exec (save refusing compact_props sample_form) editing)) = true.
Proof.
  split; [|split; [|split; [|split]]]; try reflexivity.
  - intros variables Hin.
    change (effects (exec (deleteUpdate declining compact_props) editing))
      with [WindowConfirm delete_message] in Hin.
    rewrite elem_of_cons, elem_of_nil in Hin. destruct Hin as [E|[]]. discriminate E.
  - intros route params Hin.
    change (effects (exec (deleteUpdate refusing compact_props) editing))
      with [WindowConfirm delete_message;
            Mutate deleteUpdateQuery (id_variables (VNum 7));
            ConsoleError ">>> deleteUpdate error: " "Unauthorized"] in Hin.
    rewrite !elem_of_cons, elem_of_nil in Hin.
    destruct Hin as [E|[E|[E|[]]]]; discriminate E.
Qed.

(** C5, amended.  [save] calls the [editUpdate] mutation with the
    submitted fields and the id of the update shown, and when the
    mutation succeeds it puts the component in [details] mode with
    [modified] false.  [deleteUpdate], once the user has confirmed, calls
    the [deleteUpdate] mutation with the id of the update, whatever the
    backend then answers, and when the mutation succeeds it navigates to
    the page of the collective. *)
Theorem actions_bound_to_mutations (env : Env) (props : Props) (form : gmap string value)
    (w : World) :
  (sent_update props form !! "id" = Some (id (update props)) ∧
   (∀ k, k ≠ "id" → sent_update props form !! k = form !! k) ∧
   Mutate editUpdateQuery (update_variables (sent_update props form))
   ∈ effects (exec (save env props form) w)) ∧
  (∀ data,
     mutate env editUpdateQuery (update_variables (sent_update props form)) = Fulfilled data →
     save env props form w
     = (Returned tt,
        {| state := {| modified := false; state_update := state_update (state w);
                       mode := details_mode |};
           effects := effects w ++
             [ConsoleLog ">>> updating ";
              Mutate editUpdateQuery (update_variables (sent_update props form));
              ConsoleLog ">>> save res"] |})) ∧
  (window_confirm env delete_message = true →
   Mutate deleteUpdateQuery (id_variables (id (update props)))
   ∈ effects (exec (deleteUpdate env props) w)) ∧
  (∀ data,
     window_confirm env delete_message = true →
     mutate env deleteUpdateQuery (id_variables (id (update props))) = Fulfilled data →
     deleteUpdate env props w
     = (Returned tt,
        {| state := state w;
           effects := effects w ++
             [WindowConfirm delete_message;
              Mutate deleteUpdateQuery (id_variables (id (update props)));
              RouterPushRoute "collective" [("slug", slug (collective props))]] |})).
Proof.
  split; [split; [|split]|split; [|split]].
  - rewrite sent_update_lookup. reflexivity.
  - intros k Hk. rewrite sent_update_lookup. case_decide; congruence.
  - run. fold (sent_update props form).
    destruct (mutate env editUpdateQuery _); cbn;
      rewrite ?elem_of_app, !elem_of_cons; tauto.
  - intros data H. run. fold (sent_update props form). rewrite H. cbn.
    rewrite <- !app_assoc. reflexivity.
  - intros Hc. run. rewrite Hc. cbn.
    destruct (mutate env deleteUpdateQuery _); cbn;
      rewrite !elem_of_app, !elem_of_cons; tauto.
  - intros data Hc Hm. run. rewrite Hc. cbn. rewrite Hm. cbn.
    rewrite <- !app_assoc. reflexivity.
Qed.

(** When the mutation fails, [save] throws and leaves the mode alone. *)
Lemma save_rejected (env : Env) (props : Props) (form : gmap string value) (w : World)
    (err : string) :
  mutate env editUpdateQuery (update_variables (sent_update props form)) = RejectedWith err →
  fst (save env props form w) = Thrown err ∧ state (exec (save env props form) w) = state w.
Proof. intros H. run. fold (sent_update props form). rewrite H. cbn. auto. Qed.

(** C6.  When the user declines, [deleteUpdate] calls no mutation, does
    not navigate and leaves the state as it is.  When the mutation
    throws, the error is logged, nothing is thrown further and there is
    no navigation.  A navigation is always to the page of the collective
    and comes right after a mutation that succeeded. *)
Theorem deleteUpdate_guarded (env : Env) (props : Props) (w : World) :
  (window_confirm env delete_message = false →
   deleteUpdate env props w
   = (Returned tt,
      {| state := state w; effects := effects w ++ [WindowConfirm delete_message] |})) ∧
  (∀ err,
     window_confirm env delete_message = true →
     mutate env deleteUpdateQuery (id_variables (id (update props))) = RejectedWith err →
     deleteUpdate env props w
     = (Returned tt,
        {| state := state w;
           effects := effects w ++
             [WindowConfirm delete_message;
              Mutate deleteUpdateQuery (id_variables (id (update props)));
              ConsoleError ">>> deleteUpdate error: " err] |})) ∧
  (∀ route params,
     RouterPushRoute route params ∈ effects (exec (deleteUpdate env props) w) →
     RouterPushRoute route params ∈ effects w ∨
     (window_confirm env delete_message = true ∧
      (∃ data, mutate env deleteUpdateQuery (id_variables (id (update props))) = Fulfilled data) ∧
      effects (exec (deleteUpdate env props) w)
      = (effects w ++
          [WindowConfirm delete_message;
           Mutate deleteUpdateQuery (id_variables (id (update props)));
           RouterPushRoute route params])%list ∧
      route = "collective" ∧ params = [("slug", slug (collective props))])).
Proof.
  split; [|split].
  - intros Hc. run. rewrite Hc. reflexivity.
  - intros err Hc Hm. run. rewrite Hc. cbn. rewrite Hm. cbn.
    rewrite <- !app_assoc. reflexivity.
  - intros route params. run.
    destruct (window_confirm env _) eqn:Hc; cbn.
    + destruct (mutate env deleteUpdateQuery _) as [data|err] eqn:Hm; cbn;
        rewrite <- !app_assoc; cbn; rewrite elem_of_app; intros [Hin|Hin]; auto.
      * right. split; [reflexivity|]. split; [eauto|].
        rewrite !elem_of_cons, elem_of_nil in Hin.
        destruct Hin as [E|[E|[E|[]]]]; try discriminate E.
        injection E as -> ->. auto.
      * rewrite !elem_of_cons, elem_of_nil in Hin.
        destruct Hin as [E|[E|[E|[]]]]; discriminate E.
    + rewrite elem_of_app. intros [Hin|Hin]; [auto|].
      rewrite elem_of_cons, elem_of_nil in Hin. destruct Hin as [E|[]]. discriminate E.
Qed.

(** ** The theorems at the sample inputs *)

Lemma actions_bound_to_mutations_witness :
  mode (state (exec (save accepting compact_props sample_form) editing)) = details_mode ∧
  effects (exec (deleteUpdate accepting compact_props) editing)
  = [WindowConfirm delete_message;
     Mutate deleteUpdateQuery (id_variables (VNum 7));
     RouterPushRoute "collective" [("slug", "acme")]].
Proof.
  destruct (actions_bound_to_mutations accepting compact_props sample_form editing)
    as (_ & Hsave & _ & Hdelete).
  split.
  - unfold exec. rewrite (Hsave (VNum 7) eq_refl). reflexivity.
  - unfold exec. rewrite (Hdelete (VNum 7) eq_refl eq_refl). reflexivity.
Defined.

Lemma deleteUpdate_guarded_witness :
  effects (exec (deleteUpdate declining compact_props) editing)
  = [WindowConfirm delete_message] ∧
  effects (exec (deleteUpdate refusing compact_props) editing)
  = [WindowConfirm delete_message;
     Mutate deleteUpdateQuery (id_variables (VNum 7));
     ConsoleError ">>> deleteUpdate error: " "Unauthorized"].
Proof.
  split.
  - destruct (deleteUpdate_guarded declining compact_props editing) as (Hdecline & _).
    unfold exec. rewrite (Hdecline eq_refl). reflexivity.
  - destruct (deleteUpdate_guarded refusing compact_props editing) as (_ & Hthrow & _).
    unfold exec. rewrite (Hthrow "Unauthorized" eq_refl eq_refl). reflexivity.
Defined.

End StyledUpdateFacts.

(** * More on the StyledUpdate component *)

Module StyledUpdateMore.
Import StyledUpdate StyledUpdateActions StyledUpdateFacts.

(** ** The elements of a tree, by tag *)

Definition tag_of (n : Node) : list string :=
  match n with
  | Element tag _ _ => [tag]
  | _ => []
  end.

(** The tags of the elements of a tree, the root first. *)
Definition tags (tree : Node) : list string := flat_map tag_of (nodes tree).

Lemma flat_map_nodes {B} (f : Node → list B) (g : Node → list Node) (l : list Node) :
  flat_map f (flat_map g l) = flat_map (λ x, flat_map f (g x)) l.
Proof.
  induction l as [|x l IH]; cbn; [reflexivity|].
  rewrite flat_map_app, IH. reflexivity.
Qed.

Lemma tags_Element (t : string) (attrs : list (string * string)) (children : list Node) :
  tags (Element t attrs children) = t :: flat_map tags children.
Proof. unfold tags. cbn. rewrite flat_map_nodes. reflexivity. Qed.

Lemma tags_FormattedMessage (i d : string) (v : list (string * MessageValue)) :
  tags (FormattedMessage i d v) = [].
Proof. reflexivity. Qed.

Lemma tags_Text (s : string) : tags (Text s) = [].
Proof. reflexivity. Qed.

Lemma tags_if (b : bool) (n1 n2 : Node) :
  tags (if b then n1 else n2) = if b then tags n1 else tags n2.
Proof. destruct b; reflexivity. Qed.

Lemma flat_map_cond {B} (f : Node → list B) (b : bool) (n : Node) :
  flat_map f (cond b n) = if b then f n else [].
Proof. destruct b; cbn; [apply app_nil_r|reflexivity]. Qed.

(** An element with a tag is rendered when the tag is among the tags. *)
Lemma rendered_tags (t : string) (tree : Node) :
  rendered t tree = existsb (λ x, x =? t) (tags tree).
Proof.
  unfold rendered, any, tags. induction (nodes tree) as [|n l IH]; cbn; [reflexivity|].
  rewrite existsb_app, <- IH. destruct n; cbn; rewrite ?orb_false_r; reflexivity.
Qed.

Create Rewrite HintDb census.
#[local] Hint Rewrite tags_Element tags_FormattedMessage tags_Text tags_if
  @flat_map_cond @flat_map_app : census.

#[local] Arguments tags : simpl never.

Ltac census := repeat (autorewrite with census; cbn).

Ltac cases :=
  repeat match goal with
         | |- context [if ?b then _ else _] => destruct b
         end.

(** *** The tags of what each method renders *)

Lemma tags_renderUpdateMeta (st : State) (u : Update) (e : bool) :
  tags (renderUpdateMeta st u e)
  = ("Container" :: (if isPrivate u then ["Box"; "Lock"; "ReactTooltip"] else [])
       ++ ["Box"; "Box"; "Role"]
       ++ (if e then ["React.Fragment"; "Box"; "ActionLink"; "Box"; "ActionLink"] else []))%list.
Proof.
  unfold renderUpdateMeta.
  destruct (isPrivate u), (truthy (publishedAt u)), e, (mode st); reflexivity.
Qed.

Lemma tags_renderUpdateTitle (props : Props) (st : State) :
  tags (renderUpdateTitle props st)
  = match mode st with summary_mode => ["Link"; "H3"] | _ => ["H3"] end.
Proof. unfold renderUpdateTitle. destruct (mode st); reflexivity. Qed.

Lemma tags_renderSummary (st : State) (u : Update) :
  tags (renderSummary st u)
  = "React.Fragment" :: "Container" :: tags (renderUpdateMeta st u false).
Proof. unfold renderSummary. census. rewrite app_nil_r. reflexivity. Qed.

Lemma tags_renderEditUpdateForm (props : Props) (st : State) :
  tags (renderEditUpdateForm props st)
  = ("Container" :: tags (renderUpdateMeta st (update props) true) ++ ["EditUpdateForm"])%list.
Proof. unfold renderEditUpdateForm. census. reflexivity. Qed.

Lemma tags_renderFullContent (props : Props) (st : State) :
  tags (renderFullContent props st)
  = ("React.Fragment"
       :: tags (renderUpdateMeta st (update props)
                  (negb (compact props) && editable props && canEditUpdate_ props))
       ++ "Container"
       :: (if truthy (html (update props)) then ["div"] else ["UpdateTextWithData"])
       ++ (if userCanSeeUpdate (update props) then [] else ["MessageBox"])
       ++ (if truthy (publishedAt (update props)) then ["Link"] else [])
       ++ (if canPublishUpdate props then ["PublishUpdateBtnWithData"] else []))%list.
Proof.
  unfold renderFullContent. cbv zeta. census. rewrite app_nil_r.
  destruct (truthy (html (update props))), (userCanSeeUpdate (update props)); reflexivity.
Qed.

Lemma tags_render (props : Props) (st : State) :
  tags (render props st)
  = (["UpdateWrapper"; "AvatarContainer"; "a"; "Avatar"]
       ++ match mode st with
          | summary_mode =>
              ["Container"; "Box"; "Link"; "H3"] ++ tags (renderSummary st (update props))
          | details_mode =>
              ["Container"; "Box"; "H3"] ++ tags (renderFullContent props st)
          | edit_mode => tags (renderEditUpdateForm props st)
          end)%list.
Proof.
  unfold render. cbv zeta. census. rewrite tags_renderUpdateTitle.
  destruct (mode st); cbn; rewrite ?app_nil_r; reflexivity.
Qed.

(** The tags of the whole component, spelled out. *)
Ltac all_tags :=
  rewrite ?rendered_tags, ?tags_render, ?tags_renderFullContent, ?tags_renderSummary,
    ?tags_renderEditUpdateForm, ?tags_renderUpdateMeta.


(** ** What is shown in which mode *)

Ltac tag_question st := all_tags; destruct (mode st); all_tags; cases; reflexivity.

Lemma ActionLink_render (props : Props) (st : State) :
  rendered "ActionLink" (render props st)
  = match mode st with
    | summary_mode => false
    | details_mode => negb (compact props) && editable props && canEditUpdate_ props
    | edit_mode => true
    end.
Proof. tag_question st. Qed.

Lemma EditUpdateForm_render (props : Props) (st : State) :
  rendered "EditUpdateForm" (render props st) = bool_decide (mode st = edit_mode).
Proof. tag_question st. Qed.

Lemma canEditUpdate__true (props : Props) :
  canEditUpdate_ props = true ↔
  ∃ u, LoggedInUser_prop props = Some u ∧ canEditUpdate u (update props) = true.
Proof.
  unfold canEditUpdate_. destruct (LoggedInUser_prop props) as [u|]; split.
  - eauto.
  - intros (u' & Hu & H). injection Hu as <-. exact H.
  - discriminate.
  - intros (u' & Hu & _). discriminate.
Qed.

(** X11.  The edit and delete links are rendered in [edit] mode; in
    [details] mode they are rendered exactly for an update that is not
    compact, is editable, and that the logged-in user may edit; in
    [summary] mode they are never rendered. *)
Theorem action_links_rendered (props : Props) (st : State) :
  rendered "ActionLink" (render props st) = true ↔
  mode st = edit_mode ∨
  (mode st = details_mode ∧ compact props = false ∧ editable props = true ∧
   ∃ u, LoggedInUser_prop props = Some u ∧ canEditUpdate u (update props) = true).
Proof.
  rewrite ActionLink_render. destruct (mode st).
  - split; [discriminate|]. intros [H|[H _]]; discriminate H.
  - rewrite !andb_true_iff, negb_true_iff, canEditUpdate__true. split.
    + intros [[H1 H2] H3]. right. auto.
    + intros [H|(_ & H1 & H2 & H3)]; [discriminate H|auto].
  - split; auto.
Qed.

(** X12.  In [edit] mode the component shows the edit form and neither
    the title nor the body of the update; in the other modes it shows the
    title and no form.  The body is shown in [details] mode only, as
    inline HTML when [update.html] is truthy and through
    [UpdateTextWithData] otherwise, never both; the notice for who cannot
    see the update is shown in [details] mode whenever
    [userCanSeeUpdate] is false. *)
Theorem form_or_content (props : Props) (st : State) :
  rendered "EditUpdateForm" (render props st) = bool_decide (mode st = edit_mode) ∧
  rendered "H3" (render props st) = negb (bool_decide (mode st = edit_mode)) ∧
  rendered "div" (render props st)
  = bool_decide (mode st = details_mode) && truthy (html (update props)) ∧
  rendered "UpdateTextWithData" (render props st)
  = bool_decide (mode st = details_mode) && negb (truthy (html (update props))) ∧
  rendered "MessageBox" (render props st)
  = bool_decide (mode st = details_mode) && negb (userCanSeeUpdate (update props)).
Proof.
  split; [apply EditUpdateForm_render|].
  repeat split; tag_question st.
Qed.

Ltac decide_meta' u e st :=
  unfold any, renderUpdateMeta;
  destruct (isPrivate u), (truthy (publishedAt u)), e, (mode st); reflexivity.

Lemma Link_renderFullContent (props : Props) (st : State) :
  rendered "Link" (renderFullContent props st) = truthy (publishedAt (update props)).
Proof. all_tags. cases; reflexivity. Qed.

(** X13.  A published update ([publishedAt] truthy) shows 'Published on
    ... by' in its metadata line and the link to the latest updates in
    its full content; a draft shows 'created on ... (draft)' and no such
    link.  The link and the publish button are never shown together. *)
Theorem published_or_draft (props : Props) (st : State) (e : bool) :
  any (is_message "update.publishedAtBy") (renderUpdateMeta st (update props) e)
  = truthy (publishedAt (update props)) ∧
  any (is_message "update.createdAt") (renderUpdateMeta st (update props) e)
  = negb (truthy (publishedAt (update props))) ∧
  rendered "Link" (renderFullContent props st) = truthy (publishedAt (update props)) ∧
  rendered "Link" (renderFullContent props st)
  && rendered "PublishUpdateBtnWithData" (renderFullContent props st) = false.
Proof.
  split; [decide_meta' (update props) e st|].
  split; [decide_meta' (update props) e st|].
  split; [apply Link_renderFullContent|].
  rewrite Link_renderFullContent, publish_renderFullContent. unfold canPublishUpdate.
  destruct (truthy (publishedAt (update props))), (LoggedInUser_prop props);
    cbn; rewrite ?andb_false_r; reflexivity.
Qed.

(** ** The handlers *)

Ltac run :=
  unfold exec, perform, toggleEdit, cancelEdit, edit, getMode, save, deleteUpdate,
    try_catch, StyledUpdate.confirm, props_editUpdate, props_deleteUpdate, await_mutate,
    emit, setState, mbind, M_bind, bind, mret, M_ret, ret;
  cbn.

(** What an action does to the mode: nothing, or [details], or [edit]. *)
Lemma perform_mode (env : Env) (props : Props) (a : Action) (b : Browser) :
  mode (state (world (perform env props a b))) = mode (state (world b)) ∨
  mode (state (world (perform env props a b))) = details_mode ∨
  mode (state (world (perform env props a b))) = edit_mode.
Proof.
  destruct a as [| | | | |form]; unfold perform; cbv zeta.
  - destruct (rendered "a" _); auto.
  - destruct (title_link_rendered _ _); auto.
  - destruct (latest_link_rendered _ _); auto.
  - destruct (rendered "ActionLink" _); [|auto].
    unfold handle. run. destruct (mode (state (world b))); cbn; auto.
  - destruct (rendered "ActionLink" _); [|auto].
    unfold handle. run. destruct (window_confirm env _); cbn; [|auto].
    destruct (mutate env _ _); cbn; auto.
  - destruct (rendered "EditUpdateForm" _); [|auto].
    unfold handle. run. destruct (mutate env _ _); cbn; auto.
Qed.

(** The links of the whole component: the title link and the link to the
    latest updates. *)
Lemma Link_render (props : Props) (st : State) :
  rendered "Link" (render props st)
  = title_link_rendered props st || latest_link_rendered props st.
Proof.
  unfold title_link_rendered, latest_link_rendered.
  rewrite (rendered_tags _ (renderUpdateTitle _ _)), tags_renderUpdateTitle.
  rewrite Link_renderFullContent. tag_question st.
Qed.

(** In [summary] mode a click follows the avatar anchor or the title
    link, or meets nothing; the component stays as it is. *)
Lemma perform_summary (env : Env) (props : Props) (a : Action) (b : Browser) :
  mode (state (world b)) = summary_mode →
  world (perform env props a b) = world b ∧
  (followed (perform env props a b) = followed b ∨
   followed (perform env props a b) = (followed b ++ [avatar_href props])%list ∨
   followed (perform env props a b) = (followed b ++ [title_route props])%list).
Proof.
  intros H. destruct a as [| | | | |form]; unfold perform; cbv zeta.
  - destruct (rendered "a" _); cbn; auto.
  - destruct (title_link_rendered _ _); cbn; auto.
  - unfold latest_link_rendered. rewrite H.
    rewrite (bool_decide_false (summary_mode = details_mode)) by discriminate. auto.
  - rewrite ActionLink_render, H. auto.
  - rewrite ActionLink_render, H. auto.
  - rewrite EditUpdateForm_render, H.
    rewrite (bool_decide_false (summary_mode = edit_mode)) by discriminate. auto.
Qed.

Definition summary_target (props : Props) (target : string) : Prop :=
  target = avatar_href props ∨ target = title_route props.

(** X14.  In [summary] mode the component shows no edit or delete link
    and no form: a click can only follow the avatar anchor or the title
    link.  So no sequence of clicks and submissions changes the state of
    a component in [summary] mode or reaches a confirmation dialog, a
    mutation, the router or the console through it.  A component that is
    not in [summary] mode never gets there. *)
Theorem summary_mode_is_fixed (props : Props) (actions : list (Env * Action)) (b : Browser) :
  (mode (state (world b)) = summary_mode →
   world (session props actions b) = world b ∧
   ∃ targets,
     followed (session props actions b) = (followed b ++ targets)%list ∧
     Forall (summary_target props) targets) ∧
  (mode (state (world b)) ≠ summary_mode →
   mode (state (world (session props actions b))) ≠ summary_mode).
Proof.
  revert b. induction actions as [|[env a] rest IH]; intros b; cbn.
  - split; [|auto]. intros _. split; [reflexivity|].
    exists []. split; [symmetry; apply app_nil_r|constructor].
  - split.
    + intros H. destruct (perform_summary env props a b H) as [Hw Hf].
      destruct (IH (perform env props a b)) as [IH1 _].
      rewrite Hw in IH1. destruct (IH1 H) as (E & targets & Et & Hall).
      split; [exact E|]. rewrite Et.
      destruct Hf as [->|[->| ->]].
      * exists targets. auto.
      * exists (avatar_href props :: targets). rewrite <- app_assoc. split; [reflexivity|].
        constructor; [left; reflexivity|exact Hall].
      * exists (title_route props :: targets). rewrite <- app_assoc. split; [reflexivity|].
        constructor; [right; reflexivity|exact Hall].
    + intros H. apply IH.
      destruct (perform_mode env props a b) as [E|[E|E]]; rewrite E; [exact H|discriminate..].
Qed.

(** The title link is the way out of a list of updates: in [summary]
    mode it is shown, and a click follows it to the page of the update. *)
Lemma ClickTitle_summary (env : Env) (props : Props) (b : Browser) :
  mode (state (world b)) = summary_mode →
  perform env props ClickTitle b = follow (title_route props) b.
Proof.
  intros H. unfold perform, title_link_rendered. cbv zeta.
  rewrite rendered_tags, tags_renderUpdateTitle, H. reflexivity.
Qed.

(** X15.  [toggleEdit] alternates between [edit] and [details]: outside
    of [summary] mode two toggles bring the mode back; they leave
    [modified] false and reach nothing outside the component. *)
Theorem toggleEdit_twice (w : World) :
  mode (state w) ≠ summary_mode →
  mode (state (exec toggleEdit (exec toggleEdit w))) = mode (state w) ∧
  modified (state (exec toggleEdit (exec toggleEdit w))) = false ∧
  effects (exec toggleEdit (exec toggleEdit w)) = effects w.
Proof. intros H. run. destruct (mode (state w)) eqn:E; cbn; [congruence|auto..]. Qed.

Lemma toggleEdit_twice_witness :
  mode (state editing) ≠ summary_mode ∧
  mode (state (exec toggleEdit (exec toggleEdit editing))) = edit_mode.
Proof.
  assert (H : mode (state editing) ≠ summary_mode) by discriminate.
  split; [exact H|]. apply (toggleEdit_twice editing H).
Defined.

(** X16.  [save] sends the id of the update shown, whatever id the
    submitted form carries: a form with an [id] of its own has the same
    effect as the form without it. *)
Theorem save_ignores_form_id (env : Env) (props : Props) (form : gmap string value)
    (v : value) (w : World) :
  save env props (<["id" := v]> form) w = save env props form w ∧
  sent_update props (<["id" := v]> form) !! "id" = Some (id (update props)).
Proof.
  split.
  - unfold save. cbv zeta. rewrite insert_insert_eq. reflexivity.
  - rewrite sent_update_lookup. reflexivity.
Qed.

Definition only_deletes_this (props : Props) (e : Effect) : Prop :=
  match e with
  | Mutate mutation variables =>
      mutation = deleteUpdateQuery ∧ variables = id_variables (id (update props))
  | WindowConfirm _ | ConsoleLog _ => False
  | RouterPushRoute _ _ | ConsoleError _ _ => True
  end.

(** X17.  Whatever the user and the backend answer, [deleteUpdate] does
    not throw and does not change the component state; it asks for
    confirmation first and once, and the only mutation it ever calls is
    [deleteUpdate] with the id of the update shown. *)
Theorem deleteUpdate_total (env : Env) (props : Props) (w : World) :
  fst (deleteUpdate env props w) = Returned tt ∧
  state (exec (deleteUpdate env props) w) = state w ∧
  ∃ rest,
    effects (exec (deleteUpdate env props) w)
    = (effects w ++ WindowConfirm delete_message :: rest)%list ∧
    Forall (only_deletes_this props) rest.
Proof.
  run. destruct (window_confirm env _); cbn.
  - destruct (mutate env _ _) as [data|err]; cbn; rewrite <- !app_assoc; cbn;
      (split; [reflexivity|]; split; [reflexivity|]; eexists; split; [reflexivity|]);
      repeat constructor.
  - split; [reflexivity|]. split; [reflexivity|]. exists []. split; [reflexivity|constructor].
Qed.

End StyledUpdateMore.

(** * More on the 2FA modal *)

Module TwoFactorMore.
Import JS TwoFactor TwoFactorView TwoFactorFacts.

(** ** The supported methods *)

Lemma elem_of_List_filter {A} (p : A → bool) (x : A) (l : list A) :
  x ∈ List.filter p l ↔ x ∈ l ∧ p x = true.
Proof. rewrite !list_elem_of_In. apply filter_In. Qed.

Lemma sublist_List_filter {A} (p : A → bool) (l : list A) : sublist (List.filter p l) l.
Proof.
  induction l as [|x l IH]; cbn; [constructor|].
  destruct (p x); [apply sublist_skip|apply sublist_cons]; exact IH.
Qed.

(** X1.  The methods the modal works with are those of the prompt, in
    the order of the prompt, without ['recovery_code'] unless the prompt
    allows recovery; a prompt without a list supports no method. *)
Theorem supportedMethods_spec (prompt : Prompt) :
  (∀ m, m ∈ supportedMethods prompt ↔
        (∃ l, prompt_supportedMethods prompt = Some l ∧ m ∈ l) ∧
        (m = "recovery_code" → allowRecovery prompt = true)) ∧
  sublist (supportedMethods prompt) (default [] (prompt_supportedMethods prompt)) ∧
  (prompt_supportedMethods prompt = None → supportedMethods prompt = []).
Proof.
  unfold supportedMethods. split; [|split].
  - intros m. rewrite elem_of_List_filter, orb_true_iff, negb_true_iff.
    destruct (prompt_supportedMethods prompt) as [l|]; cbn.
    + split.
      * intros [Hin H]. split; [eauto|]. intros ->. destruct H as [H|H]; [|exact H].
        rewrite String.eqb_refl in H. discriminate H.
      * intros [(l' & E & Hin) H]. injection E as <-. split; [exact Hin|].
        destruct (m =? "recovery_code") eqn:E; [|auto].
        right. apply H. apply String.eqb_eq, E.
    + split.
      * intros [Hin _]. apply elem_of_nil in Hin. contradiction.
      * intros [(l' & E & _) _]. discriminate E.
  - apply sublist_List_filter.
  - intros ->. reflexivity.
Qed.

Lemma Array_includes_elem_of (l : list string) (m : string) :
  Array_includes l (JStr m) = true ↔ m ∈ l.
Proof.
  unfold Array_includes. rewrite existsb_exists. split.
  - intros (y & Hin & E). apply strict_eq_true in E. injection E as ->.
    apply list_elem_of_In, Hin.
  - intros Hin. exists m. split; [apply list_elem_of_In, Hin|apply strict_eq_true; reflexivity].
Qed.

(** The alternative methods are the supported methods other than
    the selected one, so the selected method is never offered as an
    alternative to itself. *)
Theorem alternativeMethods_spec (prompt : Prompt) (w : World) (m : string) :
  m ∈ alternativeMethods prompt w ↔
  m ∈ supportedMethods prompt ∧ selectedMethod w ≠ JStr m.
Proof.
  unfold alternativeMethods. rewrite elem_of_List_filter, negb_true_iff, strict_eq_false.
  split; intros [H1 H2]; (split; [exact H1|congruence]).
Qed.

Lemma elem_of_alternativeMethods (prompt : Prompt) (w : World) (m : string) :
  m ∈ alternativeMethods prompt w ↔
  m ∈ supportedMethods prompt ∧ selectedMethod w ≠ JStr m.
Proof.
  unfold alternativeMethods. rewrite elem_of_List_filter, negb_true_iff, strict_eq_false.
  split; intros [H1 H2]; (split; [exact H1|congruence]).
Qed.

Lemma alternativeMethods_member (prompt : Prompt) (w : World) (m : string) :
  m ∈ alternativeMethods prompt w →
  m ∈ supportedMethods prompt ∧ selectedMethod w ≠ JStr m.
Proof.
  unfold alternativeMethods. rewrite elem_of_List_filter, negb_true_iff, strict_eq_false.
  intros [H1 H2]. split; [exact H1|congruence].
Qed.

(** ** [initialMethod] *)

Lemma Array_find_JStr (p : string → bool) (l : list string) (m : string) :
  Array_find p l = JStr m → m ∈ l ∧ p m = true.
Proof.
  induction l as [|x l IH]; cbn; [discriminate|].
  destruct (p x) eqn:E.
  - intros [= <-]. split; [apply list_elem_of_here|exact E].
  - intros H. destruct (IH H) as [Hin Hp]. split; [apply list_elem_of_further, Hin|exact Hp].
Qed.

Section More.

Variable PREFERRED_TWO_FACTOR_METHOD : string.

Abbreviation initialMethod := (initialMethod PREFERRED_TWO_FACTOR_METHOD).
Abbreviation dispatch := (dispatch PREFERRED_TWO_FACTOR_METHOD).
Abbreviation confirm := (confirm PREFERRED_TWO_FACTOR_METHOD).
Abbreviation useWebAuthn_start := (useWebAuthn_start PREFERRED_TWO_FACTOR_METHOD).
Abbreviation onSupportedMethodsChange := (onSupportedMethodsChange PREFERRED_TWO_FACTOR_METHOD).
Abbreviation mount := (mount PREFERRED_TWO_FACTOR_METHOD).
Abbreviation events := (events PREFERRED_TWO_FACTOR_METHOD).

Lemma initialMethod_elem_of (ls : gmap string string) (l : list string) (m : string) :
  initialMethod ls (Some l) = JStr m → m ∈ l.
Proof.
  unfold TwoFactor.initialMethod. destruct (length l =? 1)%nat.
  - destruct l as [|x l]; [discriminate|]. intros [= <-]. apply list_elem_of_here.
  - unfold js_or. destruct (truthy _); intros H; apply Array_find_JStr in H; tauto.
Qed.

(** X2.  A method [initialMethod] answers is a method of the list it was
    given: a stored preference for a method the list does not have is
    passed over.  It answers ['recovery_code'] only when that is the one
    method of the list or the stored preference. *)
Theorem initialMethod_member (ls : gmap string string) (l : list string) (m : string) :
  initialMethod ls (Some l) = JStr m →
  m ∈ l ∧
  (m = "recovery_code" →
   l = ["recovery_code"] ∨ ls !! PREFERRED_TWO_FACTOR_METHOD = Some "recovery_code").
Proof.
  intros H. split; [exact (initialMethod_elem_of ls l m H)|].
  intros ->. revert H. unfold TwoFactor.initialMethod.
  destruct (length l =? 1)%nat eqn:Hlen.
  - destruct l as [|x [|y l]]; try discriminate. intros [= ->]. left. reflexivity.
  - unfold js_or. destruct (truthy _); intros H; apply Array_find_JStr in H as [_ H].
    + right. apply strict_eq_true in H. symmetry in H.
      apply getFromLocalStorage_JStr in H. exact H.
    + discriminate H.
Qed.

(** X3.  The effect run when the supported methods change selects
    [initialMethod] of them and touches nothing else; without supported
    methods it does nothing.  A method it selects is a supported one, so
    it never selects ['recovery_code'] for a prompt that does not allow
    recovery. *)
Theorem onSupportedMethodsChange_spec (prompt : Prompt) (w : World) :
  (supportedMethods prompt = [] → exec (onSupportedMethodsChange prompt) w = w) ∧
  (supportedMethods prompt ≠ [] →
   selectedMethod (exec (onSupportedMethodsChange prompt) w)
   = initialMethod (localStorage w) (Some (supportedMethods prompt)) ∧
   (∀ m, selectedMethod (exec (onSupportedMethodsChange prompt) w) = JStr m →
         m ∈ supportedMethods prompt) ∧
   (allowRecovery prompt = false →
    selectedMethod (exec (onSupportedMethodsChange prompt) w) ≠ JStr "recovery_code")) ∧
  twoFactorCode (exec (onSupportedMethodsChange prompt) w) = twoFactorCode w ∧
  confirming (exec (onSupportedMethodsChange prompt) w) = confirming w ∧
  localStorage (exec (onSupportedMethodsChange prompt) w) = localStorage w ∧
  auth (exec (onSupportedMethodsChange prompt) w) = auth w ∧
  toasts (exec (onSupportedMethodsChange prompt) w) = toasts w.
Proof.
  unfold exec, TwoFactor.onSupportedMethodsChange, when.
  split; [|split].
  - intros ->. reflexivity.
  - intros Hne.
    assert (Hlen : (0 <? length (supportedMethods prompt))%nat = true).
    { apply Nat.ltb_lt. destruct (supportedMethods prompt); [congruence|cbn; lia]. }
    rewrite Hlen. cbn. split; [reflexivity|].
    assert (Hin : ∀ m, initialMethod (localStorage w) (Some (supportedMethods prompt)) = JStr m
                       → m ∈ supportedMethods prompt)
      by (intros m; apply initialMethod_elem_of).
    split; [exact Hin|].
    intros Hrec H. apply Hin in H. unfold supportedMethods in H.
    apply elem_of_List_filter in H as [_ H]. rewrite Hrec in H. discriminate H.
  - destruct (0 <? length (supportedMethods prompt))%nat; cbn; auto.
Qed.

(** ** The handlers *)

Ltac run :=
  unfold exec, TwoFactor.dispatch, TwoFactor.confirm, cancel, TwoFactor.useWebAuthn_start,
    useWebAuthn_resume, when, resolveAuth, rejectAuth, settle, toast,
    setLocalStorage, setSelectedMethod, setTwoFactorCode, setConfirming,
    mbind, TwoFactor.M_bind, TwoFactor.bind, mret, TwoFactor.M_ret, TwoFactor.ret;
  cbn.

Lemma verifyBtnEnabled_not_selected (prompt : Prompt) (w : World) :
  selectedMethod w = JNull → verifyBtnEnabled prompt w = false.
Proof. intros H. unfold verifyBtnEnabled. rewrite H. apply andb_false_r. Qed.

(** X4.  [confirm] and [cancel] leave the modal with no method selected,
    an empty code and [confirming] false, whatever it held before, so the
    Verify button is disabled afterwards; [cancel] leaves local storage
    as it is. *)
Theorem confirm_cancel_reset (prompt : Prompt) (c : string) (m : jsval) (w : World) :
  (selectedMethod (exec (confirm c m) w) = JNull ∧
   twoFactorCode (exec (confirm c m) w) = "" ∧
   confirming (exec (confirm c m) w) = false ∧
   verifyBtnEnabled prompt (exec (confirm c m) w) = false) ∧
  (selectedMethod (exec cancel w) = JNull ∧
   twoFactorCode (exec cancel w) = "" ∧
   confirming (exec cancel w) = false ∧
   verifyBtnEnabled prompt (exec cancel w) = false ∧
   localStorage (exec cancel w) = localStorage w).
Proof.
  assert (Hc : selectedMethod (exec (confirm c m) w) = JNull ∧
               twoFactorCode (exec (confirm c m) w) = "" ∧
               confirming (exec (confirm c m) w) = false).
  { run. destruct (negb (strict_eq m (JStr "recovery_code"))); cbn; auto. }
  destruct Hc as (H1 & H2 & H3). split.
  - repeat split; try assumption. apply verifyBtnEnabled_not_selected, H1.
  - repeat split. apply verifyBtnEnabled_not_selected. reflexivity.
Qed.

(** X5.  A WebAuthn attempt that fails reports the error in an error
    toast and ends with [confirming] false and an empty code; it leaves
    the promise and the selected method as they were, and 'webauthn' is
    stored as the preferred method all the same. *)
Theorem failed_webauthn_attempt (w : World) (e_message : string) :
  let w' := exec (useWebAuthn_resume (Failed e_message)) (exec useWebAuthn_start w) in
  auth w' = auth w ∧
  selectedMethod w' = selectedMethod w ∧
  twoFactorCode w' = "" ∧
  confirming w' = false ∧
  toasts w' = (toasts w ++ [{| variant := "error"; message := e_message |}])%list ∧
  localStorage w' !! PREFERRED_TWO_FACTOR_METHOD = Some "webauthn".
Proof. run. repeat split. apply lookup_insert_eq. Qed.

(** A click on an alternative method changes at most the selected
    method: the code typed so far is kept.  A method it selects is a
    supported method other than the one selected before. *)
Theorem ClickAlternative_spec (prompt : Prompt) (m : Method) (w : World) :
  let w' := exec (dispatch prompt (ClickAlternative m)) w in
  (w' = w ∨
   selectedMethod w' = JStr (method_name m) ∧
   method_name m ∈ supportedMethods prompt ∧
   selectedMethod w ≠ JStr (method_name m)) ∧
  twoFactorCode w' = twoFactorCode w ∧
  confirming w' = confirming w ∧
  localStorage w' = localStorage w ∧
  auth w' = auth w ∧
  toasts w' = toasts w.
Proof.
  cbv zeta. unfold exec, TwoFactor.dispatch, when.
  destruct (_ && Array_includes _ _) eqn:G; cbn; [|auto 10].
  apply andb_true_iff in G as [_ G].
  apply Array_includes_elem_of, alternativeMethods_member in G. auto 10.
Qed.

Lemma ClickAlternative_effect (prompt : Prompt) (m : Method) (w : World) :
  exec (dispatch prompt (ClickAlternative m)) w = w ∨
  selectedMethod (exec (dispatch prompt (ClickAlternative m)) w) = JStr (method_name m) ∧
  method_name m ∈ supportedMethods prompt.
Proof.
  unfold exec, TwoFactor.dispatch, when.
  destruct (_ && Array_includes _ _) eqn:G; cbn; [|auto].
  apply andb_true_iff in G as [_ G].
  apply Array_includes_elem_of, alternativeMethods_member in G. right. tauto.
Qed.

(** ** From mount on *)

(** The selected method is a supported one, and while no method is
    selected the code is empty. *)
Definition selection_ok (prompt : Prompt) (w : World) : Prop :=
  match selectedMethod w with
  | JStr m => m ∈ supportedMethods prompt
  | JNull | JUndefined => twoFactorCode w = ""
  end.

Lemma selection_ok_mount (ls : gmap string string) (prompt : Prompt) :
  selection_ok prompt (mount ls prompt).
Proof.
  unfold selection_ok.
  change (selectedMethod (mount ls prompt))
    with (initialMethod ls (Some (supportedMethods prompt))).
  destruct (initialMethod ls (Some (supportedMethods prompt))) as [| |m] eqn:E;
    [reflexivity..|]. apply (initialMethod_elem_of ls _ m E).
Qed.

Lemma selection_ok_dispatch (prompt : Prompt) (e : Event) (w : World) :
  selection_ok prompt w → selection_ok prompt (exec (dispatch prompt e) w).
Proof.
  unfold selection_ok. intros H. destruct e as [m|v| | |[r|msg]|[|]|].
  - destruct (ClickAlternative_effect prompt m w) as [-> | (-> & Hin)]; [exact H|exact Hin].
  - unfold exec, TwoFactor.dispatch, when. destruct (_ && negb _) eqn:G; cbn; [|exact H].
    destruct (selectedMethod w); [discriminate G..|exact H].
  - unfold exec, TwoFactor.dispatch, when. destruct (_ && negb _); [|exact H].
    run. destruct (negb _); reflexivity.
  - unfold exec, TwoFactor.dispatch, when. destruct (verifyBtnEnabled prompt w); [|exact H].
    destruct (strict_eq (selectedMethod w) (JStr "webauthn")).
    + run. destruct (selectedMethod w); [reflexivity..|exact H].
    + run. destruct (negb _); reflexivity.
  - run. exact H.
  - run. exact H.
  - exact H.
  - reflexivity.
  - reflexivity.
Qed.

(** X7.  From mount on and through every sequence of events, the
    selected method is one of the supported methods, and whenever no
    method is selected the code is empty. *)
Theorem selection_ok_always (ls : gmap string string) (prompt : Prompt) (es : list Event) :
  selection_ok prompt (events prompt es (mount ls prompt)).
Proof.
  generalize (selection_ok_mount ls prompt). generalize (mount ls prompt).
  induction es as [|e es IH]; intros w H; cbn; [exact H|].
  apply IH, selection_ok_dispatch, H.
Qed.

End More.

Lemma initialMethod_member_witness :
  initialMethod sample_key {[sample_key := "webauthn"]}
    (Some ["recovery_code"; "totp"; "webauthn"]) = JStr "webauthn" ∧
  "webauthn" ∈ ["recovery_code"; "totp"; "webauthn"].
Proof.
  assert (H : initialMethod sample_key {[sample_key := "webauthn"]}
                (Some ["recovery_code"; "totp"; "webauthn"]) = JStr "webauthn").
  { unfold initialMethod, getFromLocalStorage. rewrite lookup_singleton_eq. reflexivity. }
  split; [exact H|]. apply (initialMethod_member sample_key _ _ _ H).
Defined.

End TwoFactorMore.

(** * What the 2FA modal renders *)

Module TwoFactorViewFacts.
Import JS TwoFactor TwoFactorView TwoFactorFacts TwoFactorMore.

Abbreviation nodes := StyledUpdate.nodes.
Abbreviation rendered := StyledUpdate.rendered.
Abbreviation tags := StyledUpdateMore.tags.

(** The handlers bound to [onClick] in a tree, the root first. *)
Definition onClick_of (n : Node) : list string :=
  match n with
  | StyledUpdate.Element _ attrs _ =>
      map snd (List.filter (λ a, fst a =? "onClick") attrs)
  | _ => []
  end.

Definition onClicks (tree : Node) : list string := flat_map onClick_of (nodes tree).

Lemma onClicks_Element (t : string) (attrs : list (string * string)) (children : list Node) :
  onClicks (Element t attrs children)
  = (onClick_of (Element t attrs children) ++ flat_map onClicks children)%list.
Proof. unfold onClicks. cbn. rewrite StyledUpdateMore.flat_map_nodes. reflexivity. Qed.

Lemma onClicks_FormattedMessage (i d : string) (v : list (string * StyledUpdate.MessageValue)) :
  onClicks (FormattedMessage i d v) = [].
Proof. reflexivity. Qed.

Lemma onClicks_if (b : bool) (n1 n2 : Node) :
  onClicks (if b then n1 else n2) = if b then onClicks n1 else onClicks n2.
Proof. destruct b; reflexivity. Qed.

#[local] Hint Rewrite StyledUpdateMore.tags_Element StyledUpdateMore.tags_FormattedMessage
  StyledUpdateMore.tags_Text StyledUpdateMore.tags_if
  @StyledUpdateMore.flat_map_cond @flat_map_app : census.
#[local] Hint Rewrite onClicks_Element onClicks_FormattedMessage onClicks_if : census.

#[local] Arguments StyledUpdateMore.tags : simpl never.
#[local] Arguments onClicks : simpl never.

Ltac census := repeat (autorewrite with census; cbn).

Definition option_tags (w : World) : list string :=
  ((if strict_eq (selectedMethod w) (JStr "recovery_code")
    then ["RecoveryCodeOptions"; "div"; "p"; "Input"] else [])
   ++ (if strict_eq (selectedMethod w) (JStr "totp")
       then ["AuthenticatorOption"; "div"; "p"; "Input"] else [])
   ++ (if strict_eq (selectedMethod w) (JStr "webauthn")
       then ["WebauthnOption"; "p"] else []))%list.

Definition alternative_tags (prompt : Prompt) (w : World) (m : Method) : list string :=
  if Array_includes (alternativeMethods prompt w) (JStr (method_name m))
  then ["li"; "StyledLinkButton"] else [].

Lemma tags_RecoveryCodeOptions (value : string) (disabled : bool) :
  tags (RecoveryCodeOptions value disabled) = ["RecoveryCodeOptions"; "div"; "p"; "Input"].
Proof. reflexivity. Qed.

Lemma tags_AuthenticatorOption (value : string) (l : list string) (disabled : bool) :
  tags (AuthenticatorOption value l disabled) = ["AuthenticatorOption"; "div"; "p"; "Input"].
Proof. reflexivity. Qed.

Lemma tags_WebauthnOption : tags WebauthnOption = ["WebauthnOption"; "p"].
Proof. reflexivity. Qed.

Lemma onClicks_WebauthnOption : onClicks WebauthnOption = [].
Proof. reflexivity. Qed.

Lemma tags_alternative (l : list string) (m : Method) (label : string) :
  flat_map tags (alternative l m label)
  = if Array_includes l (JStr (method_name m)) then ["li"; "StyledLinkButton"] else [].
Proof. unfold alternative. destruct (Array_includes _ _); reflexivity. Qed.

Lemma onClicks_RecoveryCodeOptions (value : string) (disabled : bool) :
  onClicks (RecoveryCodeOptions value disabled) = [].
Proof. reflexivity. Qed.

Lemma onClicks_AuthenticatorOption (value : string) (l : list string) (disabled : bool) :
  onClicks (AuthenticatorOption value l disabled) = [].
Proof. reflexivity. Qed.

Lemma onClicks_alternative (l : list string) (m : Method) (label : string) :
  flat_map onClicks (alternative l m label)
  = if Array_includes l (JStr (method_name m))
    then ["setSelectedMethod('" ++ method_name m ++ "')"] else [].
Proof. unfold alternative. destruct (Array_includes _ _); reflexivity. Qed.

#[local] Hint Rewrite tags_RecoveryCodeOptions tags_AuthenticatorOption tags_WebauthnOption
  tags_alternative onClicks_RecoveryCodeOptions onClicks_AuthenticatorOption
  onClicks_WebauthnOption onClicks_alternative : census.

Ltac same_branches :=
  repeat match goal with
         | |- context [if ?b then ?x else ?x] => destruct b
         end.

(** The tags of the modal. *)
Lemma tags_TwoFactorAuthenticationModal (settingsRoute : option string) (prompt : Prompt)
    (w : World) :
  tags (TwoFactorAuthenticationModal settingsRoute prompt w)
  = (["AlertDialog"; "AlertDialogContent"; "AlertDialogHeader"; "AlertDialogTitle"]
       ++ (if bool_decide (is_Some settingsRoute) && (length (supportedMethods prompt) =? 0)%nat
           then ["AlertDialogDescription"] else [])
       ++ option_tags w
       ++ (if (1 <? length (supportedMethods prompt))%nat
           then ["div"; "p"; "ul"]
                  ++ alternative_tags prompt w totp
                  ++ alternative_tags prompt w webauthn
                  ++ alternative_tags prompt w recovery_code
           else [])
       ++ "AlertDialogFooter"
       :: (if cancellable prompt then ["AlertDialogCancel"] else [])
       ++ ["Button"])%list.
Proof.
  unfold TwoFactorAuthenticationModal, option_tags, alternative_tags. cbv zeta.
  census. destruct settingsRoute as [href|]; census; same_branches;
    rewrite ?app_nil_r, <- ?app_assoc; cbn; rewrite ?app_nil_r; reflexivity.
Qed.

(** The [onClick] handlers of the modal. *)
Lemma onClicks_TwoFactorAuthenticationModal (settingsRoute : option string) (prompt : Prompt)
    (w : World) :
  onClicks (TwoFactorAuthenticationModal settingsRoute prompt w)
  = ((if (1 <? length (supportedMethods prompt))%nat
      then flat_map onClicks (alternative (alternativeMethods prompt w) totp "Authenticator Code")
           ++ flat_map onClicks (alternative (alternativeMethods prompt w) webauthn
                                   "U2F (Hardware Key, Passkey, Phone, etc)")
           ++ flat_map onClicks (alternative (alternativeMethods prompt w) recovery_code
                                   "Recovery code")
      else [])
     ++ [if strict_eq (selectedMethod w) (JStr "webauthn") then "useWebAuthn" else "confirm"])%list.
Proof.
  unfold TwoFactorAuthenticationModal. cbv zeta.
  census. destruct settingsRoute as [href|]; census; same_branches;
    rewrite ?app_nil_r, <- ?app_assoc; cbn; rewrite ?app_nil_r; reflexivity.
Qed.

(** ** Reading the modal *)

Lemma existsb_if_nil {A} (f : A → bool) (b : bool) (l : list A) :
  existsb f (if b then l else []) = b && existsb f l.
Proof. destruct b; reflexivity. Qed.

Lemma strict_eq_cases (v : jsval) :
  (strict_eq v (JStr "recovery_code") = true ∧ strict_eq v (JStr "totp") = false
   ∧ strict_eq v (JStr "webauthn") = false) ∨
  (strict_eq v (JStr "recovery_code") = false ∧ strict_eq v (JStr "totp") = true
   ∧ strict_eq v (JStr "webauthn") = false) ∨
  (strict_eq v (JStr "recovery_code") = false ∧ strict_eq v (JStr "totp") = false
   ∧ strict_eq v (JStr "webauthn") = true) ∨
  (strict_eq v (JStr "recovery_code") = false ∧ strict_eq v (JStr "totp") = false
   ∧ strict_eq v (JStr "webauthn") = false).
Proof.
  destruct (strict_eq v (JStr "recovery_code")) eqn:E1;
    destruct (strict_eq v (JStr "totp")) eqn:E2;
    destruct (strict_eq v (JStr "webauthn")) eqn:E3;
    rewrite ?strict_eq_true in *; subst; try discriminate; auto 10.
Qed.

(** Which tags a question is about decides it: the tags of the modal,
    with each condition kept as it is. *)
Ltac tag_question :=
  rewrite StyledUpdateMore.rendered_tags, tags_TwoFactorAuthenticationModal;
  unfold option_tags, alternative_tags;
  repeat (progress (rewrite ?existsb_app, ?existsb_if_nil; cbn));
  rewrite ?andb_false_r, ?andb_true_r, ?orb_false_r; cbn.

(** X8.  The modal shows the input of the selected method and no other:
    [RecoveryCodeOptions] for ['recovery_code'], [AuthenticatorOption]
    for ['totp'], [WebauthnOption] for ['webauthn'], nothing when no
    method is selected.  There is one code input for ['recovery_code']
    and ['totp'], and none otherwise. *)
Theorem selected_option_rendered (settingsRoute : option string) (prompt : Prompt)
    (w : World) :
  (rendered "RecoveryCodeOptions" (TwoFactorAuthenticationModal settingsRoute prompt w) = true
   ↔ selectedMethod w = JStr "recovery_code") ∧
  (rendered "AuthenticatorOption" (TwoFactorAuthenticationModal settingsRoute prompt w) = true
   ↔ selectedMethod w = JStr "totp") ∧
  (rendered "WebauthnOption" (TwoFactorAuthenticationModal settingsRoute prompt w) = true
   ↔ selectedMethod w = JStr "webauthn") ∧
  length (List.filter (λ t, t =? "Input")
            (tags (TwoFactorAuthenticationModal settingsRoute prompt w)))
  = if strict_eq (selectedMethod w) (JStr "recovery_code")
       || strict_eq (selectedMethod w) (JStr "totp")
    then 1 else 0.
Proof.
  split; [|split; [|split]].
  - tag_question. apply strict_eq_true.
  - tag_question. apply strict_eq_true.
  - tag_question. apply strict_eq_true.
  - rewrite tags_TwoFactorAuthenticationModal. unfold option_tags, alternative_tags.
    destruct (strict_eq_cases (selectedMethod w)) as [H|[H|[H|H]]];
      destruct H as (-> & -> & ->); cbn [orb];
      repeat match goal with
             | |- context [if ?b then _ else _] => destruct b
             end; reflexivity.
Qed.

Lemma elem_of_if_singleton (b : bool) (x y : string) :
  x ∈ (if b then [y] else []) ↔ b = true ∧ x = y.
Proof.
  destruct b.
  - rewrite list_elem_of_singleton. tauto.
  - rewrite elem_of_nil. split; [tauto|]. intros [H _]. discriminate H.
Qed.

(** X9.  The link that selects a method is part of the modal exactly
    when more than one method is supported, the method is one of them
    and it is not the selected one: this is when a click on an
    alternative reaches [setSelectedMethod].  The Verify button calls
    [useWebAuthn] when ['webauthn'] is selected and [confirm]
    otherwise. *)
Theorem alternative_links (settingsRoute : option string) (prompt : Prompt) (w : World)
    (m : Method) :
  (("setSelectedMethod('" ++ method_name m ++ "')")
   ∈ onClicks (TwoFactorAuthenticationModal settingsRoute prompt w)
   ↔ 1 < length (supportedMethods prompt) ∧
     method_name m ∈ supportedMethods prompt ∧
     selectedMethod w ≠ JStr (method_name m)) ∧
  last (onClicks (TwoFactorAuthenticationModal settingsRoute prompt w))
  = Some (if strict_eq (selectedMethod w) (JStr "webauthn") then "useWebAuthn" else "confirm").
Proof.
  rewrite onClicks_TwoFactorAuthenticationModal, !onClicks_alternative. split.
  - rewrite elem_of_app, list_elem_of_singleton.
    destruct (1 <? length (supportedMethods prompt))%nat eqn:L.
    + apply Nat.ltb_lt in L.
      rewrite !elem_of_app, !elem_of_if_singleton, !Array_includes_elem_of,
        !elem_of_alternativeMethods.
      destruct m; cbn; destruct (strict_eq (selectedMethod w) (JStr "webauthn"));
        (split;
         [ intros [[[Hm E]|[[Hm E]|[Hm E]]]|E]; try discriminate E; split; [exact L|exact Hm]
         | intros [_ Hm]; left;
           first [ left; split; [exact Hm|reflexivity]
                 | right; left; split; [exact Hm|reflexivity]
                 | right; right; split; [exact Hm|reflexivity] ] ]).
    + apply Nat.ltb_ge in L. rewrite elem_of_nil.
      destruct m; cbn; destruct (strict_eq (selectedMethod w) (JStr "webauthn"));
        split; try (intros [[]|H]; discriminate H); intros [H _]; lia.
  - apply last_snoc.
Qed.

(** X10.  The Cancel button is offered exactly when the prompt is not
    required, and the Verify button always.  The list of alternatives is
    shown only when more than one method is supported, and the
    instructions to set up 2FA only to a logged-in user when no method
    is supported. *)
Theorem modal_frame (settingsRoute : option string) (prompt : Prompt) (w : World) :
  rendered "AlertDialogCancel" (TwoFactorAuthenticationModal settingsRoute prompt w)
  = negb (isRequired prompt) ∧
  rendered "Button" (TwoFactorAuthenticationModal settingsRoute prompt w) = true ∧
  rendered "ul" (TwoFactorAuthenticationModal settingsRoute prompt w)
  = (1 <? length (supportedMethods prompt))%nat ∧
  rendered "AlertDialogDescription" (TwoFactorAuthenticationModal settingsRoute prompt w)
  = bool_decide (is_Some settingsRoute) && (length (supportedMethods prompt) =? 0)%nat.
Proof.
  split; [|split; [|split]]; tag_question.
  - reflexivity.
  - rewrite ?orb_true_r. reflexivity.
  - destruct (length (supportedMethods prompt)) as [|[|n]]; reflexivity.
  - reflexivity.
Qed.

(** ** A click on a link of the modal *)

(** When the link of a method is part of the modal. *)
Lemma link_rendered_iff (settingsRoute : option string) (prompt : Prompt) (w : World)
    (m : Method) :
  ("setSelectedMethod('" ++ method_name m ++ "')")
  ∈ onClicks (TwoFactorAuthenticationModal settingsRoute prompt w)
  ↔ 1 < length (supportedMethods prompt) ∧ method_name m ∈ alternativeMethods prompt w.
Proof.
  rewrite onClicks_TwoFactorAuthenticationModal, !onClicks_alternative.
  rewrite elem_of_app, list_elem_of_singleton.
  destruct (1 <? length (supportedMethods prompt))%nat eqn:L.
  - apply Nat.ltb_lt in L.
    rewrite !elem_of_app, !elem_of_if_singleton, !Array_includes_elem_of.
    destruct m; cbn; destruct (strict_eq (selectedMethod w) (JStr "webauthn"));
      (split;
       [ intros [[[Hm E]|[[Hm E]|[Hm E]]]|E]; try discriminate E; split; [exact L|exact Hm]
       | intros [_ Hm]; left;
         first [ left; split; [exact Hm|reflexivity]
               | right; left; split; [exact Hm|reflexivity]
               | right; right; split; [exact Hm|reflexivity] ] ]).
  - apply Nat.ltb_ge in L. rewrite elem_of_nil.
    destruct m; cbn; destruct (strict_eq (selectedMethod w) (JStr "webauthn"));
      split; try (intros [[]|H]; discriminate H); intros [H _]; lia.
Qed.

(** The link is there exactly when [dispatch] lets the click through. *)
Lemma link_rendered_guard (settingsRoute : option string) (prompt : Prompt) (w : World)
    (m : Method) :
  ("setSelectedMethod('" ++ method_name m ++ "')")
  ∈ onClicks (TwoFactorAuthenticationModal settingsRoute prompt w)
  ↔ (1 <? length (supportedMethods prompt))%nat
    && Array_includes (alternativeMethods prompt w) (JStr (method_name m)) = true.
Proof.
  rewrite link_rendered_iff, andb_true_iff, Nat.ltb_lt, Array_includes_elem_of. reflexivity.
Qed.

(** X6.  A click on the link of an alternative method that the modal
    shows sets the selected method to that method and changes nothing
    else: the code typed so far is kept.  The method is then a supported
    method other than the one selected before.  Where the modal does not
    show the link, there is nothing to click and nothing changes. *)
Theorem click_on_alternative (PREFERRED_TWO_FACTOR_METHOD : string)
    (settingsRoute : option string) (prompt : Prompt) (m : Method) (w : World) :
  (("setSelectedMethod('" ++ method_name m ++ "')")
   ∈ onClicks (TwoFactorAuthenticationModal settingsRoute prompt w) →
   exec (dispatch PREFERRED_TWO_FACTOR_METHOD prompt (ClickAlternative m)) w
   = {| selectedMethod := JStr (method_name m);
        twoFactorCode := twoFactorCode w;
        confirming := confirming w;
        localStorage := localStorage w;
        auth := auth w;
        toasts := toasts w |} ∧
   method_name m ∈ supportedMethods prompt ∧
   selectedMethod w ≠ JStr (method_name m)) ∧
  (("setSelectedMethod('" ++ method_name m ++ "')")
   ∉ onClicks (TwoFactorAuthenticationModal settingsRoute prompt w) →
   exec (dispatch PREFERRED_TWO_FACTOR_METHOD prompt (ClickAlternative m)) w = w).
Proof.
  split.
  - intros H. split.
    + apply link_rendered_guard in H. unfold exec, dispatch, when. rewrite H. reflexivity.
    + apply link_rendered_iff in H as [_ H]. apply elem_of_alternativeMethods, H.
  - intros H. rewrite link_rendered_guard in H. apply not_true_is_false in H.
    unfold exec, dispatch, when. rewrite H. reflexivity.
Qed.

Lemma click_on_alternative_witness :
  ("setSelectedMethod('webauthn')"
   ∈ onClicks (TwoFactorAuthenticationModal None sample_prompt sample_world)) ∧
  selectedMethod (exec (dispatch sample_key sample_prompt (ClickAlternative webauthn))
                    sample_world) = JStr "webauthn" ∧
  twoFactorCode (exec (dispatch sample_key sample_prompt (ClickAlternative webauthn))
                   sample_world) = "123456".
Proof.
  assert (H : "setSelectedMethod('webauthn')"
              ∈ onClicks (TwoFactorAuthenticationModal None sample_prompt sample_world)).
  { apply (link_rendered_guard None sample_prompt sample_world webauthn). reflexivity. }
  split; [exact H|].
  destruct (click_on_alternative sample_key None sample_prompt webauthn sample_world)
    as [Hclick _].
  destruct (Hclick H) as [-> _]. split; reflexivity.
Defined.

End TwoFactorViewFacts.
